(** * Denon/Marantz AVR integration driver: media-player entity and driver glue

    A shallow embedding of [intg-denonavr/media_player.py] and of the parts of
    [intg-denonavr/driver.py] that carry state, with the properties the
    specification states about them.

    Python dictionaries are finite maps ([gmap]) keyed by strings, the values a
    dictionary of attributes may hold are the inductive type [value],
    exceptions are results of the [result] type, and the calls made on a
    receiver connection are recorded in a log that is threaded through the
    command handler. *)

From Stdlib Require Import QArith Qminmax Lqa.
From stdpp Require Import base option list strings gmap fin_maps.

Local Open Scope string_scope.

(** ** Python values and exceptions *)

(** The exceptions the modelled code can raise. *)
Inductive exn := KeyError | TypeError | AttributeError.

(** A computation either returns or raises. *)
Inductive result (A : Type) :=
  | Return (a : A)
  | Raise (e : exn).
Arguments Return {A} a.
Arguments Raise {A} e.

(** The receiver library's state enumeration.

    Modelled from the spec: [avr.States] lives in [avr.py], which is not part
    of the sources at hand; the specification gives its members as ON, OFF,
    PAUSED, PLAYING, UNAVAILABLE and UNKNOWN. *)
Module avr.
Module States.
Inductive t := ON | OFF | PAUSED | PLAYING | UNAVAILABLE | UNKNOWN.
#[global] Instance eq_dec : EqDecision t.
Proof. solve_decision. Defined.
End States.
End avr.

(** The entity state enumeration of the integration library, with the members
    the specification lists for an entity. *)
Module States.
Inductive t := ON | OFF | PAUSED | PLAYING | UNAVAILABLE | UNKNOWN.
#[global] Instance eq_dec : EqDecision t.
Proof. solve_decision. Defined.
End States.

(** What an attribute dictionary can hold: [None], booleans, numbers (the
    volume, as an integer), strings, lists of strings (source and sound-mode
    lists) and members of the two state enumerations. *)
Inductive value :=
  | VNone
  | VBool (b : bool)
  | VInt (n : Z)
  | VStr (s : string)
  | VList (l : list string)
  | VAvrState (s : avr.States.t)
  | VState (s : States.t).

#[global] Instance value_eq_dec : EqDecision value.
Proof. solve_decision. Defined.

(** Python's [==].  A boolean is a number ([True == 1], [False == 0]);
    members of an enumeration are equal to themselves only. *)
Definition py_eq (a b : value) : bool :=
  match a, b with
  | VNone, VNone => true
  | VBool x, VBool y => bool_decide (x = y)
  | VBool x, VInt n | VInt n, VBool x => bool_decide (n = Z.b2z x)
  | VInt m, VInt n => bool_decide (m = n)
  | VStr s, VStr t => bool_decide (s = t)
  | VList l, VList k => bool_decide (l = k)
  | VAvrState s, VAvrState t => bool_decide (s = t)
  | VState s, VState t => bool_decide (s = t)
  | _, _ => false
  end.

(** Python's [!=]. *)
Definition py_ne (a b : value) : bool := negb (py_eq a b).

(** [v is None]. *)
Definition is_none (v : value) : bool :=
  match v with VNone => true | _ => false end.

(** Truthiness, as used by [not v]. *)
Definition truthy (v : value) : bool :=
  match v with
  | VNone => false
  | VBool b => b
  | VInt n => negb (bool_decide (n = 0%Z))
  | VStr s => negb (bool_decide (s = ""))
  | VList l => negb (bool_decide (l = []))
  | VAvrState _ | VState _ => true
  end.

(** Only hashable values can be looked up in a dictionary: a list cannot. *)
Definition hashable (v : value) : bool :=
  match v with VList _ => false | _ => true end.

(** ** Names of the integration library *)

(** Attribute names of a media-player entity.  The members of
    [ucapi.media_player.Attributes] are strings; each constant stands for a
    member's string. *)
Module Attributes.
Definition STATE := "state".
Definition VOLUME := "volume".
Definition MUTED := "muted".
Definition MEDIA_TYPE := "media_type".
Definition MEDIA_IMAGE_URL := "media_image_url".
Definition MEDIA_TITLE := "media_title".
Definition MEDIA_ARTIST := "media_artist".
Definition MEDIA_ALBUM := "media_album".
Definition SOURCE := "source".
Definition SOURCE_LIST := "source_list".
Definition SOUND_MODE := "sound_mode".
Definition SOUND_MODE_LIST := "sound_mode_list".
End Attributes.

(** Entity features. *)
Module Features.
Inductive t :=
  | ON_OFF | TOGGLE | VOLUME | VOLUME_UP_DOWN | MUTE_TOGGLE | MUTE | UNMUTE
  | PLAY_PAUSE | STOP | NEXT | PREVIOUS
  | MEDIA_TITLE | MEDIA_ARTIST | MEDIA_ALBUM | MEDIA_IMAGE_URL | MEDIA_TYPE
  | SELECT_SOURCE | SELECT_SOUND_MODE | DPAD | MENU | CONTEXT_MENU | INFO.
#[global] Instance eq_dec : EqDecision t.
Proof. solve_decision. Defined.
End Features.

(** ** Receiver state to entity state *)

(** Lookup in a dictionary written as a literal: the first entry whose key is
    [==] to the key asked for. *)
Definition dict_get {V} (d : list (value * V)) (k : value) : option V :=
  snd <$> List.find (fun kv => py_eq (fst kv) k) d.

(** Mapping of an AVR state to a media-player entity state. *)
Definition MEDIA_PLAYER_STATE_MAPPING : list (value * States.t) :=
  [ (VAvrState avr.States.ON, States.ON);
    (VAvrState avr.States.OFF, States.OFF);
    (VAvrState avr.States.PAUSED, States.PAUSED);
    (VAvrState avr.States.PLAYING, States.PLAYING);
    (VAvrState avr.States.UNAVAILABLE, States.UNAVAILABLE);
    (VAvrState avr.States.UNKNOWN, States.UNKNOWN) ].

(** [state_from_avr]: the membership test hashes its argument, so a list
    raises [TypeError]; any other value is looked up and defaults to
    UNKNOWN. *)
Definition state_from_avr (avr_state : value) : result States.t :=
  if hashable avr_state then
    match dict_get MEDIA_PLAYER_STATE_MAPPING avr_state with
    | Some s => Return s
    | None => Return States.UNKNOWN
    end
  else Raise TypeError.

(** ** The media-player entity *)

(** Status codes of the integration library. *)
Module StatusCodes.
Inductive t :=
  | OK | BAD_REQUEST | UNAUTHORIZED | NOT_FOUND | TIMEOUT | CONFLICT
  | SERVER_ERROR | NOT_IMPLEMENTED | SERVICE_UNAVAILABLE.
End StatusCodes.

(** A device configuration record ([config.AvrDevice]) with the fields the
    entity reads. *)
Record AvrDevice := {
  dev_id : string;
  dev_name : string;
  dev_address : string;
  support_sound_mode : bool;
  is_denon : bool;
  use_telnet : bool;
}.

(** The operations of a receiver connection that the entity invokes. *)
Inductive Call :=
  | play_pause | stop | next | previous
  | set_volume_level (volume : value)
  | volume_up | volume_down
  | mute (muted : bool)
  | power_on | power_off | power_toggle
  | select_source (source : value)
  | select_sound_mode (mode : value)
  | cursor_up | cursor_down | cursor_left | cursor_right | cursor_enter
  | back | setup | options | info
  | send_simple_command (cmd : string).

(** A receiver connection ([avr.DenonDevice]) as the entity sees it: an
    identifier and, for each operation, the status code the connection
    answers with. *)
Record DenonDevice := {
  receiver_id : string;
  respond : Call -> StatusCodes.t;
}.

(** The entity object: [_receiver] is [None] when no connection is bound. *)
Record DenonMediaPlayer := {
  _receiver : option DenonDevice;
  id : string;
  name : string;
  features : list Features.t;
  attributes : gmap string value;
  simple_commands : list string;
}.

(** The entity with its recorded attributes replaced, as the integration
    library does when it stores a delta. *)
Definition with_attributes (self : DenonMediaPlayer) (a : gmap string value)
  : DenonMediaPlayer :=
  {| _receiver := _receiver self; id := id self; name := name self;
     features := features self; attributes := a;
     simple_commands := simple_commands self |}.

(** [_key_update_helper]: a [None] value is skipped; otherwise the key is set
    when the entity records a different value for it or none at all. *)
Definition _key_update_helper (self : DenonMediaPlayer) (key : string)
    (v : value) (acc : gmap string value) : gmap string value :=
  if is_none v then acc
  else
    match attributes self !! key with
    | Some old => if py_ne old v then <[key := v]> acc else acc
    | None => <[key := v]> acc
    end.

(** The list-valued attributes are compared only when the entity records the
    key. *)
Definition list_update (self : DenonMediaPlayer) (key : string)
    (update acc : gmap string value) : gmap string value :=
  match update !! key with
  | Some v =>
      match attributes self !! key with
      | Some old => if py_ne v old then <[key := v]> acc else acc
      | None => acc
      end
  | None => acc
  end.

(** The scalar attributes compared in the loop, in the order of the source. *)
Definition scalar_attributes : list string :=
  [ Attributes.MEDIA_ARTIST; Attributes.MEDIA_ALBUM;
    Attributes.MEDIA_IMAGE_URL; Attributes.MEDIA_TITLE;
    Attributes.MUTED; Attributes.SOURCE; Attributes.VOLUME ].

(** One round of the loop over [scalar_attributes]. *)
Definition scalar_update (self : DenonMediaPlayer) (update : gmap string value)
    (acc : gmap string value) (attr : string) : gmap string value :=
  match update !! attr with
  | Some v => _key_update_helper self attr v acc
  | None => acc
  end.

(** The sound-mode block, entered only with the SELECT_SOUND_MODE feature. *)
Definition sound_mode_update (self : DenonMediaPlayer)
    (update acc : gmap string value) : gmap string value :=
  if bool_decide (Features.SELECT_SOUND_MODE ∈ features self) then
    list_update self Attributes.SOUND_MODE_LIST update
      (scalar_update self update acc Attributes.SOUND_MODE)
  else acc.

(** The media fields cleared when the delta switches the state to OFF. *)
Definition cleared_attributes : list string :=
  [ Attributes.MEDIA_IMAGE_URL; Attributes.MEDIA_ALBUM;
    Attributes.MEDIA_ARTIST; Attributes.MEDIA_TITLE;
    Attributes.MEDIA_TYPE; Attributes.SOURCE ].

(** The last block of [filter_changed_attributes]. *)
Definition clear_when_off (acc : gmap string value) : gmap string value :=
  match acc !! Attributes.STATE with
  | Some st =>
      if py_eq st (VState States.OFF) then
        <[Attributes.SOURCE := VStr ""]>
          (<[Attributes.MEDIA_TYPE := VStr ""]>
            (<[Attributes.MEDIA_TITLE := VStr ""]>
              (<[Attributes.MEDIA_ARTIST := VStr ""]>
                (<[Attributes.MEDIA_ALBUM := VStr ""]>
                  (<[Attributes.MEDIA_IMAGE_URL := VStr ""]> acc)))))
      else acc
  | None => acc
  end.

(** The delta before the OFF rule, given the dictionary [acc] left by the
    state block. *)
Definition diff_after_state (self : DenonMediaPlayer)
    (update acc : gmap string value) : gmap string value :=
  sound_mode_update self update
    (list_update self Attributes.SOURCE_LIST update
      (foldl (scalar_update self update) acc scalar_attributes)).

(** [filter_changed_attributes]: the changed attributes of [update] with
    respect to the attributes the entity records. *)
Definition filter_changed_attributes (self : DenonMediaPlayer)
    (update : gmap string value) : result (gmap string value) :=
  match update !! Attributes.STATE with
  | Some avr_state =>
      match state_from_avr avr_state with
      | Return state =>
          Return (clear_when_off (diff_after_state self update
            (_key_update_helper self Attributes.STATE (VState state) ∅)))
      | Raise e => Raise e
      end
  | None => Return (clear_when_off (diff_after_state self update ∅))
  end.

(** ** Construction of the entity *)

(** The simple-command tables of [simplecommand.py], which is not part of the
    sources at hand: they are taken as they come. *)
Record simplecommand := {
  ALL_COMMANDS : list string;
  ALL_COMMANDS_DENON : list string;
  ALL_COMMANDS_TELNET : list string;
  ALL_COMMANDS_TELNET_DENON : list string;
}.

(** Modelled from the spec: [config.create_entity_id] is not part of the
    sources at hand; entity identifiers are derived from the device
    identifier and the entity type, as in [media_player.<deviceId>]. *)
Definition create_entity_id (avr_id : string) (entity_type : string) : string :=
  entity_type +:+ "." +:+ avr_id.

(** Command names of a media-player entity: the members of
    [ucapi.media_player.Commands] are strings. *)
Module Commands.
Definition ON := "on".
Definition OFF := "off".
Definition TOGGLE := "toggle".
Definition PLAY_PAUSE := "play_pause".
Definition STOP := "stop".
Definition PREVIOUS := "previous".
Definition NEXT := "next".
Definition VOLUME := "volume".
Definition VOLUME_UP := "volume_up".
Definition VOLUME_DOWN := "volume_down".
Definition MUTE_TOGGLE := "mute_toggle".
Definition MUTE := "mute".
Definition UNMUTE := "unmute".
Definition SELECT_SOURCE := "select_source".
Definition SELECT_SOUND_MODE := "select_sound_mode".
Definition CURSOR_UP := "cursor_up".
Definition CURSOR_DOWN := "cursor_down".
Definition CURSOR_LEFT := "cursor_left".
Definition CURSOR_RIGHT := "cursor_right".
Definition CURSOR_ENTER := "cursor_enter".
Definition BACK := "back".
Definition MENU := "menu".
Definition CONTEXT_MENU := "context_menu".
Definition INFO := "info".
End Commands.

(** The commands [command] handles by a case of their own, in the order of
    its [match]. *)
Definition structured_commands : list string :=
  [ Commands.PLAY_PAUSE; Commands.STOP; Commands.NEXT; Commands.PREVIOUS;
    Commands.VOLUME; Commands.VOLUME_UP; Commands.VOLUME_DOWN;
    Commands.MUTE_TOGGLE; Commands.MUTE; Commands.UNMUTE;
    Commands.ON; Commands.OFF; Commands.TOGGLE;
    Commands.SELECT_SOURCE; Commands.SELECT_SOUND_MODE;
    Commands.CURSOR_UP; Commands.CURSOR_DOWN; Commands.CURSOR_LEFT;
    Commands.CURSOR_RIGHT; Commands.CURSOR_ENTER;
    Commands.BACK; Commands.MENU; Commands.CONTEXT_MENU; Commands.INFO ].

Section Entity.

Variable tables : simplecommand.

(** The features of a new entity. *)
Definition init_features (device : AvrDevice) : list Features.t :=
  [ Features.ON_OFF; Features.TOGGLE; Features.VOLUME;
    Features.VOLUME_UP_DOWN; Features.MUTE_TOGGLE; Features.MUTE;
    Features.UNMUTE; Features.PLAY_PAUSE; Features.NEXT; Features.PREVIOUS;
    Features.MEDIA_TITLE; Features.MEDIA_ARTIST; Features.MEDIA_ALBUM;
    Features.MEDIA_IMAGE_URL; Features.MEDIA_TYPE; Features.SELECT_SOURCE;
    Features.DPAD; Features.MENU; Features.CONTEXT_MENU; Features.INFO ]
  ++ (if support_sound_mode device then [Features.SELECT_SOUND_MODE] else [])
  ++ (if is_denon device then [Features.STOP] else []).

(** The attributes of a new entity. *)
Definition init_attributes (device : AvrDevice) : gmap string value :=
  let attributes : gmap string value :=
    <[Attributes.SOURCE_LIST := VList []]>
      (<[Attributes.SOURCE := VStr ""]>
        (<[Attributes.MEDIA_ALBUM := VStr ""]>
          (<[Attributes.MEDIA_ARTIST := VStr ""]>
            (<[Attributes.MEDIA_TITLE := VStr ""]>
              (<[Attributes.MEDIA_IMAGE_URL := VStr ""]>
                (<[Attributes.MUTED := VBool false]>
                  (<[Attributes.VOLUME := VInt 0]>
                    (<[Attributes.STATE := VState States.UNAVAILABLE]> ∅)))))))) in
  if support_sound_mode device then
    <[Attributes.SOUND_MODE_LIST := VList []]>
      (<[Attributes.SOUND_MODE := VStr ""]> attributes)
  else attributes.

(** The simple commands of a new entity, by the flavor of the device. *)
Definition init_simple_commands (device : AvrDevice) : list string :=
  if is_denon device then
    if use_telnet device then ALL_COMMANDS_TELNET_DENON tables
    else ALL_COMMANDS_DENON tables
  else
    if use_telnet device then ALL_COMMANDS_TELNET tables
    else ALL_COMMANDS tables.

(** [DenonMediaPlayer.__init__]. *)
Definition __init__ (device : AvrDevice) (receiver : DenonDevice)
  : DenonMediaPlayer :=
  {| _receiver := Some receiver;
     id := create_entity_id (receiver_id receiver) "media_player";
     name := dev_name device;
     features := init_features device;
     attributes := init_attributes device;
     simple_commands := init_simple_commands device |}.

End Entity.

(** ** The command handler *)

(** What the handler runs in: the entity object and the log of the operations
    invoked on the receiver connection, oldest first. *)
Record Env := {
  self : DenonMediaPlayer;
  invoked : list Call;
}.

(** Commands read and write the environment and may raise; the environment
    reached when an exception is raised is kept. *)
Definition M (A : Type) : Type := Env -> result A * Env.

Definition ret {A} (a : A) : M A := fun env => (Return a, env).

Definition raise {A} (e : exn) : M A := fun env => (Raise e, env).

Definition bind {A B} (m : M A) (k : A -> M B) : M B :=
  fun env =>
    match m env with
    | (Return a, env') => k a env'
    | (Raise e, env') => (Raise e, env')
    end.

Notation "'let!' x ':=' m 'in' k" := (bind m (fun x => k))
  (at level 10, x name, m at level 100, k at level 200).

Definition get_self : M DenonMediaPlayer := fun env => (Return (self env), env).

(** [await receiver.op(...)]: the operation is invoked on the connection and
    its status code comes back. *)
Definition await (receiver : DenonDevice) (c : Call) : M StatusCodes.t :=
  fun env =>
    (Return (respond receiver c),
     {| self := self env; invoked := invoked env ++ [c] |}).

(** [d[key]] on a dictionary. *)
Definition subscript (d : gmap string value) (key : string) : M value :=
  match d !! key with
  | Some v => ret v
  | None => raise KeyError
  end.

(** [params.get(key)], where [params] may be [None]. *)
Definition params_get (params : option (gmap string value)) (key : string)
  : M value :=
  match params with
  | Some d => ret (default VNone (d !! key))
  | None => raise AttributeError
  end.

Section Command.

Variable tables : simplecommand.

(** The cases of the [match] on the command, for a bound receiver. *)
Definition command_match (me : DenonMediaPlayer) (receiver : DenonDevice)
    (cmd_id : string) (params : option (gmap string value))
  : M StatusCodes.t :=
  if String.eqb cmd_id Commands.PLAY_PAUSE then await receiver play_pause
  else if String.eqb cmd_id Commands.STOP then await receiver stop
  else if String.eqb cmd_id Commands.NEXT then await receiver next
  else if String.eqb cmd_id Commands.PREVIOUS then await receiver previous
  else if String.eqb cmd_id Commands.VOLUME then
    let! volume := params_get params "volume" in
    await receiver (set_volume_level volume)
  else if String.eqb cmd_id Commands.VOLUME_UP then await receiver volume_up
  else if String.eqb cmd_id Commands.VOLUME_DOWN then await receiver volume_down
  else if String.eqb cmd_id Commands.MUTE_TOGGLE then
    let! muted := subscript (attributes me) Attributes.MUTED in
    await receiver (mute (negb (truthy muted)))
  else if String.eqb cmd_id Commands.MUTE then await receiver (mute true)
  else if String.eqb cmd_id Commands.UNMUTE then await receiver (mute false)
  else if String.eqb cmd_id Commands.ON then await receiver power_on
  else if String.eqb cmd_id Commands.OFF then await receiver power_off
  else if String.eqb cmd_id Commands.TOGGLE then await receiver power_toggle
  else if String.eqb cmd_id Commands.SELECT_SOURCE then
    let! source := params_get params "source" in
    await receiver (select_source source)
  else if String.eqb cmd_id Commands.SELECT_SOUND_MODE then
    let! mode := params_get params "mode" in
    await receiver (select_sound_mode mode)
  else if String.eqb cmd_id Commands.CURSOR_UP then await receiver cursor_up
  else if String.eqb cmd_id Commands.CURSOR_DOWN then await receiver cursor_down
  else if String.eqb cmd_id Commands.CURSOR_LEFT then await receiver cursor_left
  else if String.eqb cmd_id Commands.CURSOR_RIGHT then await receiver cursor_right
  else if String.eqb cmd_id Commands.CURSOR_ENTER then await receiver cursor_enter
  else if String.eqb cmd_id Commands.BACK then await receiver back
  else if String.eqb cmd_id Commands.MENU then await receiver setup
  else if String.eqb cmd_id Commands.CONTEXT_MENU then await receiver options
  else if String.eqb cmd_id Commands.INFO then await receiver info
  else if bool_decide (cmd_id ∈ ALL_COMMANDS_TELNET_DENON tables) then
    await receiver (send_simple_command cmd_id)
  else ret StatusCodes.NOT_IMPLEMENTED.

(** [DenonMediaPlayer.command]. *)
Definition command (cmd_id : string) (params : option (gmap string value))
  : M StatusCodes.t :=
  let! me := get_self in
  match _receiver me with
  | None => ret StatusCodes.SERVICE_UNAVAILABLE
  | Some receiver => command_match me receiver cmd_id params
  end.

End Command.

(** ** The driver *)

Module config.

(** The text after the first dot of [s], if there is a dot. *)
Fixpoint after_dot (s : string) : option string :=
  match s with
  | EmptyString => None
  | String c rest =>
      (* character 46 is the dot *)
      if Ascii.eqb c (Ascii.ascii_of_nat 46) then Some rest
      else after_dot rest
  end.

(** Modelled from the spec: [config.avr_from_entity_id] is not part of the
    sources at hand; entity identifiers are derived from the device
    identifier and the entity type, as in [media_player.<deviceId>], so the
    device identifier is what follows the type and its dot. *)
Definition avr_from_entity_id (entity_id : string) : option string :=
  after_dot entity_id.

End config.

Module driver.

(** Events of a receiver and the handlers the driver registers for them in
    [_configure_new_avr]. *)
Inductive Events := CONNECTED | DISCONNECTED | ERROR | UPDATE | IP_ADDRESS_CHANGED.

Inductive Handler :=
  | on_avr_connected | on_avr_disconnected | on_avr_connection_error
  | on_avr_update | handle_avr_address_change.

(** A receiver object as the driver sees it: whether it is connected and the
    listeners registered on its event emitter. *)
Record Receiver := {
  connected : bool;
  listeners : list (Events * Handler);
}.

(** [receiver.disconnect()]. *)
Definition disconnect (r : Receiver) : Receiver :=
  {| connected := false; listeners := listeners r |}.

(** [receiver.events.remove_all_listeners()]. *)
Definition remove_all_listeners (r : Receiver) : Receiver :=
  {| connected := connected r; listeners := [] |}.

(** The listeners [_configure_new_avr] registers on a new receiver. *)
Definition driver_listeners : list (Events * Handler) :=
  [ (CONNECTED, on_avr_connected); (DISCONNECTED, on_avr_disconnected);
    (ERROR, on_avr_connection_error); (UPDATE, on_avr_update);
    (IP_ADDRESS_CHANGED, handle_avr_address_change) ].

Section Unsubscribe.

(** [config.avr_from_entity_id], taken as it comes. *)
Variable avr_from_entity_id : string -> option string.

(** [on_unsubscribe_entities], on the map [_configured_avrs] of receiver
    identifiers to receiver objects.  The map reached when an exception is
    raised is kept. *)
Fixpoint on_unsubscribe_entities (entity_ids : list string)
    (_configured_avrs : gmap string Receiver)
  : result unit * gmap string Receiver :=
  match entity_ids with
  | [] => (Return tt, _configured_avrs)
  | entity_id :: rest =>
      match avr_from_entity_id entity_id with
      | None => on_unsubscribe_entities rest _configured_avrs
      | Some avr_id =>
          if bool_decide (is_Some (_configured_avrs !! avr_id)) then
            match _configured_avrs !! entity_id with
            | Some r =>
                on_unsubscribe_entities rest
                  (<[entity_id := remove_all_listeners (disconnect r)]>
                    _configured_avrs)
            | None => (Raise KeyError, _configured_avrs)
            end
          else on_unsubscribe_entities rest _configured_avrs
      end
  end.

End Unsubscribe.

(** The sleep of one cycle of [receiver_status_poller], from the interval and
    the clock readings at the start and at the end of the cycle's work. *)
Definition poller_sleep (interval start_time end_time : Q) : Q :=
  let elapsed_time := (end_time - start_time)%Q in
  Qmin 10 (Qmax 1 (interval - elapsed_time)).

(** What the specification asks of the sleep, in its words: the interval
    minus the elapsed work time, clamped to the range from one second to the
    interval. *)
Definition spec_poller_sleep (interval elapsed_time : Q) : Q :=
  Qmin interval (Qmax 1 (interval - elapsed_time)).

End driver.

(** ** Statements about the delta *)

(** Whether [_key_update_helper] sets [key] to [v]. *)
Definition scalar_changed (self : DenonMediaPlayer) (key : string) (v : value)
  : bool :=
  negb (is_none v) &&
  match attributes self !! key with
  | Some old => py_ne old v
  | None => true
  end.

(** Whether [list_update] sets [key] to [v]. *)
Definition list_changed (self : DenonMediaPlayer) (key : string) (v : value)
  : bool :=
  match attributes self !! key with
  | Some old => py_ne v old
  | None => false
  end.

(** The entry a round of the scalar loop leaves under [key]. *)
Definition scalar_entry (self : DenonMediaPlayer) (update : gmap string value)
    (key : string) : option value :=
  match update !! key with
  | Some v => if scalar_changed self key v then Some v else None
  | None => None
  end.

(** The entry [list_update] leaves under [key]. *)
Definition list_entry (self : DenonMediaPlayer) (update : gmap string value)
    (key : string) : option value :=
  match update !! key with
  | Some v => if list_changed self key v then Some v else None
  | None => None
  end.

(** The first of two optional entries that is present. *)
Definition or_else {A} (o d : option A) : option A :=
  match o with Some x => Some x | None => d end.

(** The entity records no value for [key], or one that is not [==] to [v]. *)
Definition unrecorded_or_differs (self : DenonMediaPlayer) (key : string)
    (v : value) : Prop :=
  forall old, attributes self !! key = Some old -> py_eq old v = false.

(** The entity records a value for [key] and it is not [==] to [v]. *)
Definition recorded_and_differs (self : DenonMediaPlayer) (key : string)
    (v : value) : Prop :=
  exists old, attributes self !! key = Some old /\ py_eq v old = false.

(** The entry the state block leaves in the delta. *)
Definition state_entry (self : DenonMediaPlayer) (update : gmap string value)
  : option value :=
  match update !! Attributes.STATE with
  | Some v =>
      match state_from_avr v with
      | Return s =>
          if scalar_changed self Attributes.STATE (VState s)
          then Some (VState s) else None
      | Raise _ => None
      end
  | None => None
  end.

(** The entry the blocks after the state block leave under [k]. *)
Definition diff_entry (self : DenonMediaPlayer) (update : gmap string value)
    (k : string) : option value :=
  if decide (k ∈ scalar_attributes) then scalar_entry self update k
  else if decide (k = Attributes.SOURCE_LIST) then list_entry self update k
  else if decide (Features.SELECT_SOUND_MODE ∈ features self) then
    if decide (k = Attributes.SOUND_MODE) then scalar_entry self update k
    else if decide (k = Attributes.SOUND_MODE_LIST) then list_entry self update k
    else None
  else None.

(** The delta before the OFF rule: the entry of the state block under the
    state key, the entries of the later blocks under the other keys. *)
Definition pre_entry (self : DenonMediaPlayer) (update : gmap string value)
    (k : string) : option value :=
  if decide (k = Attributes.STATE) then state_entry self update
  else diff_entry self update k.

(** What the specification's sentence on the delta says of a key: the delta
    contains it exactly when the update supplies it with a value the entity
    does not record under that key. *)
Definition plain_difference (self : DenonMediaPlayer)
    (update delta : gmap string value) (k : string) : Prop :=
  is_Some (delta !! k) <->
  exists v, update !! k = Some v /\ unrecorded_or_differs self k v.

(** ** Storing a delta and naming entities *)

(** [api.configured_entities.update_attributes] on the entity: every key of
    the delta is set in the recorded attributes, the other keys are kept. *)
Definition update_attributes (self : DenonMediaPlayer)
    (delta : gmap string value) : DenonMediaPlayer :=
  with_attributes self (delta ∪ attributes self).

(** [_entities_from_avr]: the entity identifiers of a receiver. *)
Definition _entities_from_avr (avr_id : string) : list string :=
  [ "media_player." +:+ avr_id; "remote." +:+ avr_id ].

(** The commands that read a parameter, with the key they read. *)
Definition parameter_commands : list (string * string) :=
  [ (Commands.VOLUME, "volume"); (Commands.SELECT_SOURCE, "source");
    (Commands.SELECT_SOUND_MODE, "mode") ].

(** The media fields that both the loop reports and the OFF rule clears. *)
Definition reported_and_cleared : list string :=
  [ Attributes.MEDIA_ARTIST; Attributes.MEDIA_ALBUM;
    Attributes.MEDIA_IMAGE_URL; Attributes.MEDIA_TITLE; Attributes.SOURCE ].

(** ** Sample inputs *)

(** Sample simple-command tables: the telnet and Denon tables extend the
    shared one, as the comments of the source describe them. *)
Definition sample_tables : simplecommand :=
  {| ALL_COMMANDS := ["OUTPUT_1"];
     ALL_COMMANDS_DENON := ["OUTPUT_1"; "DELAY_UP"];
     ALL_COMMANDS_TELNET := ["OUTPUT_1"; "DIMMER_OFF"];
     ALL_COMMANDS_TELNET_DENON := ["OUTPUT_1"; "DIMMER_OFF"; "DELAY_UP"] |}.

(** A generic receiver without sound-mode support, reached over HTTP. *)
Definition sample_device : AvrDevice :=
  {| dev_id := "avr1"; dev_name := "Living room"; dev_address := "10.0.0.2";
     support_sound_mode := false; is_denon := false; use_telnet := false |}.

(** A connection that answers every operation with OK. *)
Definition sample_receiver : DenonDevice :=
  {| receiver_id := "avr1"; respond := fun _ => StatusCodes.OK |}.

(** The entity of [sample_device], as constructed. *)
Definition sample_entity : DenonMediaPlayer :=
  __init__ sample_tables sample_device sample_receiver.

(** A connected receiver object with the listeners of the driver. *)
Definition sample_avr : driver.Receiver :=
  {| driver.connected := true; driver.listeners := driver.driver_listeners |}.

(** * Properties *)

(** Unfolds the attribute names and the lists of them. *)
Ltac unfold_names :=
  cbv [scalar_attributes cleared_attributes
       Attributes.STATE Attributes.VOLUME Attributes.MUTED
       Attributes.MEDIA_TYPE Attributes.MEDIA_IMAGE_URL
       Attributes.MEDIA_TITLE Attributes.MEDIA_ARTIST Attributes.MEDIA_ALBUM
       Attributes.SOURCE Attributes.SOURCE_LIST Attributes.SOUND_MODE
       Attributes.SOUND_MODE_LIST] in *.

(** Membership of a string in a list of string constants. *)
Ltac decide_elem :=
  unfold_names;
  repeat first
    [ rewrite elem_of_nil | rewrite elem_of_cons | rewrite not_elem_of_cons ];
  intuition (try discriminate; try congruence).

(** ** Lookups of the delta *)

Lemma key_update_helper_lookup self key v acc k :
  _key_update_helper self key v acc !! k =
  if decide (k = key)
  then (if scalar_changed self key v then Some v else acc !! k)
  else acc !! k.
Proof.
  unfold _key_update_helper, scalar_changed.
  destruct (is_none v); simpl.
  - by case_decide.
  - destruct (attributes self !! key) as [old|].
    + destruct (py_ne old v); case_decide; simplify_map_eq; done.
    + case_decide; simplify_map_eq; done.
Qed.

Lemma scalar_update_lookup self update acc attr k :
  scalar_update self update acc attr !! k =
  if decide (k = attr) then or_else (scalar_entry self update attr) (acc !! k)
  else acc !! k.
Proof.
  unfold scalar_update, scalar_entry.
  destruct (update !! attr) as [v|].
  - rewrite key_update_helper_lookup.
    case_decide; [|done]. by destruct (scalar_changed self attr v).
  - by case_decide.
Qed.

Lemma foldl_scalar_update_lookup self update l acc k :
  foldl (scalar_update self update) acc l !! k =
  if decide (k ∈ l) then or_else (scalar_entry self update k) (acc !! k)
  else acc !! k.
Proof.
  revert acc. induction l as [|a l IH]; intros acc; cbn [foldl].
  - by rewrite decide_False by apply not_elem_of_nil.
  - rewrite IH, scalar_update_lookup.
    destruct (decide (k = a)) as [->|Hne]; cbv iota.
    + rewrite (decide_True (P := a ∈ a :: l)) by apply list_elem_of_here.
      destruct (scalar_entry self update a); simpl; by case_decide.
    + destruct (decide (k ∈ l)); cbv iota.
      * by rewrite (decide_True (P := k ∈ a :: l))
          by by apply list_elem_of_further.
      * by rewrite (decide_False (P := k ∈ a :: l))
          by by apply not_elem_of_cons.
Qed.

Lemma list_update_lookup self key update acc k :
  list_update self key update acc !! k =
  if decide (k = key) then or_else (list_entry self update key) (acc !! k)
  else acc !! k.
Proof.
  unfold list_update, list_entry, list_changed.
  destruct (update !! key) as [v|]; [|by case_decide].
  destruct (attributes self !! key) as [old|]; [|by case_decide].
  destruct (py_ne v old); case_decide; simplify_map_eq; done.
Qed.

Lemma diff_after_state_lookup self update acc k :
  diff_after_state self update acc !! k =
  or_else (diff_entry self update k) (acc !! k).
Proof.
  unfold diff_after_state, sound_mode_update, diff_entry.
  destruct (decide (Features.SELECT_SOUND_MODE ∈ features self)) as [Hf|Hf].
  - rewrite bool_decide_eq_true_2 by done.
    rewrite list_update_lookup, scalar_update_lookup, list_update_lookup,
      foldl_scalar_update_lookup.
    destruct (decide (k ∈ scalar_attributes)) as [Hk|Hk];
      destruct (decide (k = Attributes.SOURCE_LIST)) as [Hl|Hl];
      destruct (decide (k = Attributes.SOUND_MODE)) as [Hm|Hm];
      destruct (decide (k = Attributes.SOUND_MODE_LIST)) as [Hn|Hn];
      try done; try (exfalso; subst k; discriminate);
      try (exfalso; revert Hk; subst k; decide_elem; fail);
      by subst k.
  - rewrite bool_decide_eq_false_2 by done.
    rewrite list_update_lookup, foldl_scalar_update_lookup.
    destruct (decide (k ∈ scalar_attributes)) as [Hk|Hk];
      destruct (decide (k = Attributes.SOURCE_LIST)) as [Hl|Hl];
      try done; try (exfalso; revert Hk; subst k; decide_elem; fail);
      by subst k.
Qed.

Lemma clear_when_off_lookup acc k :
  clear_when_off acc !! k =
  if decide (k ∈ cleared_attributes) then
    match acc !! Attributes.STATE with
    | Some st => if py_eq st (VState States.OFF) then Some (VStr "") else acc !! k
    | None => acc !! k
    end
  else acc !! k.
Proof.
  unfold clear_when_off.
  destruct (acc !! Attributes.STATE) as [st|]; [|by case_decide].
  destruct (py_eq st (VState States.OFF)); [|by case_decide].
  destruct (decide (k ∈ cleared_attributes)) as [Hk|Hk].
  - revert Hk. unfold_names. rewrite !elem_of_cons, elem_of_nil.
    intros [->|[->|[->|[->|[->|[->|[]]]]]]]; by simplify_map_eq.
  - revert Hk. unfold_names. rewrite !not_elem_of_cons.
    intros (?&?&?&?&?&?&_). by simplify_map_eq.
Qed.

Lemma py_eq_state_off st :
  py_eq st (VState States.OFF) = true <-> st = VState States.OFF.
Proof.
  destruct st as [| | | | | |s]; simpl; try (split; [discriminate|congruence]).
  rewrite bool_decide_eq_true. split; congruence.
Qed.

Lemma or_else_None {A} (o : option A) : or_else o None = o.
Proof. by destruct o. Qed.

Lemma diff_entry_state self update :
  diff_entry self update Attributes.STATE = None.
Proof.
  unfold diff_entry.
  rewrite (decide_False (P := _ ∈ scalar_attributes)) by decide_elem.
  rewrite (decide_False (P := _ = Attributes.SOURCE_LIST)) by discriminate.
  destruct (decide (_ ∈ features self)); [|done].
  rewrite (decide_False (P := _ = Attributes.SOUND_MODE)) by discriminate.
  by rewrite (decide_False (P := _ = Attributes.SOUND_MODE_LIST)) by discriminate.
Qed.

(** The lookups of a returned delta. *)
Lemma filter_changed_attributes_lookup self update delta k :
  filter_changed_attributes self update = Return delta ->
  delta !! k =
  if decide (k ∈ cleared_attributes) then
    match state_entry self update with
    | Some st =>
        if py_eq st (VState States.OFF) then Some (VStr "")
        else pre_entry self update k
    | None => pre_entry self update k
    end
  else pre_entry self update k.
Proof.
  unfold filter_changed_attributes. intros Hret.
  assert (exists acc,
    delta = clear_when_off (diff_after_state self update acc) /\
    (forall j, acc !! j =
       if decide (j = Attributes.STATE) then state_entry self update else None))
    as (acc & -> & Hacc).
  { unfold state_entry.
    destruct (update !! Attributes.STATE) as [v|].
    - destruct (state_from_avr v) as [s|e]; [|discriminate].
      injection Hret as <-. eexists; split; [done|]. intros j.
      rewrite key_update_helper_lookup, lookup_empty.
      by case_decide.
    - injection Hret as <-. exists ∅; split; [done|]. intros j.
      rewrite lookup_empty. by case_decide. }
  assert (forall j, diff_after_state self update acc !! j = pre_entry self update j)
    as Hpre.
  { intros j. rewrite diff_after_state_lookup, Hacc. unfold pre_entry.
    destruct (decide (j = Attributes.STATE)) as [->|?].
    - by rewrite diff_entry_state.
    - apply or_else_None. }
  rewrite clear_when_off_lookup, !Hpre.
  replace (pre_entry self update Attributes.STATE) with (state_entry self update);
    [done|].
  unfold pre_entry. by rewrite decide_True by done.
Qed.

Lemma scalar_changed_spec self key v :
  scalar_changed self key v = true <->
  v ≠ VNone /\ unrecorded_or_differs self key v.
Proof.
  unfold scalar_changed, unrecorded_or_differs, py_ne.
  rewrite andb_true_iff, negb_true_iff. split.
  - intros [Hv Hold]. split; [by intros ->|].
    intros old Heq. rewrite Heq in Hold. by apply negb_true_iff.
  - intros [Hv Hold]. split; [by destruct v|].
    destruct (attributes self !! key) as [old|]; [|done].
    apply negb_true_iff. by apply Hold.
Qed.

Lemma list_changed_spec self key v :
  list_changed self key v = true <-> recorded_and_differs self key v.
Proof.
  unfold list_changed, recorded_and_differs, py_ne. split.
  - destruct (attributes self !! key) as [old|]; [|discriminate].
    intros H%negb_true_iff. by exists old.
  - intros (old & -> & H). by apply negb_true_iff.
Qed.

Lemma scalar_entry_is_Some self update key :
  is_Some (scalar_entry self update key) <->
  exists v, update !! key = Some v /\ v ≠ VNone /\
            unrecorded_or_differs self key v.
Proof.
  unfold scalar_entry. split.
  - destruct (update !! key) as [v|]; [|by intros [? ?]].
    destruct (scalar_changed self key v) eqn:Hc; [|by intros [? ?]].
    intros _. exists v. split; [done|]. by apply scalar_changed_spec.
  - intros (v & -> & Hc). apply scalar_changed_spec in Hc. by rewrite Hc.
Qed.

Lemma list_entry_is_Some self update key :
  is_Some (list_entry self update key) <->
  exists v, update !! key = Some v /\ recorded_and_differs self key v.
Proof.
  unfold list_entry. split.
  - destruct (update !! key) as [v|]; [|by intros [? ?]].
    destruct (list_changed self key v) eqn:Hc; [|by intros [? ?]].
    intros _. exists v. split; [done|]. by apply list_changed_spec.
  - intros (v & -> & Hc). apply list_changed_spec in Hc. by rewrite Hc.
Qed.

Lemma state_entry_is_Some self update :
  is_Some (state_entry self update) <->
  exists v s, update !! Attributes.STATE = Some v /\
              state_from_avr v = Return s /\
              unrecorded_or_differs self Attributes.STATE (VState s).
Proof.
  unfold state_entry. split.
  - destruct (update !! Attributes.STATE) as [v|]; [|by intros [? ?]].
    destruct (state_from_avr v) as [s|e] eqn:Hs; [|by intros [? ?]].
    destruct (scalar_changed _ _ _) eqn:Hc; [|by intros [? ?]].
    intros _. exists v, s. split; [done|]. split; [done|].
    apply scalar_changed_spec in Hc. by destruct Hc.
  - intros (v & s & -> & -> & Hc).
    assert (scalar_changed self Attributes.STATE (VState s) = true) as ->; [|done].
    by apply scalar_changed_spec.
Qed.

(** The state entry of a delta is a member of the entity state enumeration. *)
Lemma state_entry_is_state self update st :
  state_entry self update = Some st -> exists s, st = VState s.
Proof.
  unfold state_entry.
  destruct (update !! Attributes.STATE) as [v|]; [|discriminate].
  destruct (state_from_avr v) as [s|e]; [|discriminate].
  destruct (scalar_changed _ _ _); [|discriminate].
  intros [= <-]. by exists s.
Qed.

Lemma filter_changed_attributes_state self update delta :
  filter_changed_attributes self update = Return delta ->
  delta !! Attributes.STATE = state_entry self update.
Proof.
  intros Hret.
  rewrite (filter_changed_attributes_lookup _ _ _ _ Hret).
  rewrite (decide_False (P := _ ∈ cleared_attributes)) by decide_elem.
  unfold pre_entry. by rewrite decide_True by done.
Qed.

(** Outside the OFF rule a delta holds the entries of the blocks. *)
Lemma filter_changed_attributes_pre self update delta k :
  filter_changed_attributes self update = Return delta ->
  ¬ (delta !! Attributes.STATE = Some (VState States.OFF)
     /\ k ∈ cleared_attributes) ->
  delta !! k = pre_entry self update k.
Proof.
  intros Hret Hoff.
  rewrite (filter_changed_attributes_lookup _ _ _ _ Hret).
  destruct (decide (k ∈ cleared_attributes)) as [Hk|Hk]; [|done].
  destruct (state_entry self update) as [st|] eqn:Hst; [|done].
  destruct (py_eq st (VState States.OFF)) eqn:Hpy; [|done].
  exfalso. apply Hoff. split; [|done].
  rewrite (filter_changed_attributes_state _ _ _ Hret), Hst.
  f_equal. by apply py_eq_state_off.
Qed.

(** [filter_changed_attributes] returns unless the state of the update is
    unhashable. *)
Lemma filter_changed_attributes_returns self update :
  (forall l, update !! Attributes.STATE ≠ Some (VList l)) ->
  exists delta, filter_changed_attributes self update = Return delta.
Proof.
  intros Hl. unfold filter_changed_attributes, state_from_avr.
  destruct (update !! Attributes.STATE) as [v|]; [|by eexists].
  destruct v as [| | | |l|s|]; simpl; try (by eexists);
    try (destruct s; by eexists).
  by destruct (Hl l).
Qed.

(** C1, as amended.  Whenever [filter_changed_attributes] returns a delta,
    a key that the OFF rule does not force into the delta is in the delta
    exactly in these cases: it is the state and the update supplies a state
    whose translation by [state_from_avr] the entity does not record; it is
    one of the scalar attributes of the loop (or the sound mode, for an entity
    with the SELECT_SOUND_MODE feature) and the update supplies a value other
    than [None] that the entity does not record; it is the source list (or the
    sound-mode list, with the feature) and the update supplies a value
    different from the one the entity records. *)
Theorem filter_changed_attributes_delta self update delta k :
  filter_changed_attributes self update = Return delta ->
  ¬ (delta !! Attributes.STATE = Some (VState States.OFF)
     /\ k ∈ cleared_attributes) ->
  is_Some (delta !! k) <->
    (k = Attributes.STATE /\
     exists v s, update !! k = Some v /\ state_from_avr v = Return s /\
                 unrecorded_or_differs self k (VState s))
    \/ (k ∈ scalar_attributes /\
        exists v, update !! k = Some v /\ v ≠ VNone /\
                  unrecorded_or_differs self k v)
    \/ (k = Attributes.SOURCE_LIST /\
        exists v, update !! k = Some v /\ recorded_and_differs self k v)
    \/ (Features.SELECT_SOUND_MODE ∈ features self /\
        k = Attributes.SOUND_MODE /\
        exists v, update !! k = Some v /\ v ≠ VNone /\
                  unrecorded_or_differs self k v)
    \/ (Features.SELECT_SOUND_MODE ∈ features self /\
        k = Attributes.SOUND_MODE_LIST /\
        exists v, update !! k = Some v /\ recorded_and_differs self k v).
Proof.
  intros Hret Hoff.
  rewrite (filter_changed_attributes_pre _ _ _ _ Hret Hoff).
  unfold pre_entry.
  destruct (decide (k = Attributes.STATE)) as [->|Hs].
  { rewrite state_entry_is_Some. split; [by left|].
    intros [[_ H]|[[Hk _]|[[Hk _]|[(_ & Hk & _)|(_ & Hk & _)]]]];
      [done|exfalso..]; try discriminate.
    revert Hk. decide_elem. }
  unfold diff_entry.
  destruct (decide (k ∈ scalar_attributes)) as [Hk|Hk].
  { rewrite scalar_entry_is_Some. split; [by right; left|].
    intros [[Hk' _]|[[_ H]|[[Hk' _]|[(_ & Hk' & _)|(_ & Hk' & _)]]]];
      [done|done|exfalso..]; subst k; revert Hk; decide_elem. }
  destruct (decide (k = Attributes.SOURCE_LIST)) as [->|Hl].
  { rewrite list_entry_is_Some. split; [by right; right; left|].
    intros [[Hk' _]|[[Hk' _]|[[_ H]|[(_ & Hk' & _)|(_ & Hk' & _)]]]];
      [done|done|done|exfalso..]; discriminate. }
  destruct (decide (Features.SELECT_SOUND_MODE ∈ features self)) as [Hf|Hf].
  - destruct (decide (k = Attributes.SOUND_MODE)) as [->|Hm].
    { rewrite scalar_entry_is_Some. split; [by right; right; right; left|].
      intros [[Hk' _]|[[Hk' _]|[[Hk' _]|[(_ & _ & H)|(_ & Hk' & _)]]]];
        [done|done|done|done|exfalso]; discriminate. }
    destruct (decide (k = Attributes.SOUND_MODE_LIST)) as [->|Hn].
    { rewrite list_entry_is_Some. split; [by right; right; right; right|].
      intros [[Hk' _]|[[Hk' _]|[[Hk' _]|[(_ & Hk' & _)|(_ & _ & H)]]]];
        done. }
    split; [by intros [? ?]|].
    intros [[Hk' _]|[[Hk' _]|[[Hk' _]|[(_ & Hk' & _)|(_ & Hk' & _)]]]]; done.
  - split; [by intros [? ?]|].
    intros [[Hk' _]|[[Hk' _]|[[Hk' _]|[(Hf' & _)|(Hf' & _)]]]]; done.
Qed.

(** The delta theorem at the entity of the sample device: a new volume is
    reported, a muted value of [None] is not. *)
Lemma filter_changed_attributes_delta_witness :
  let update : gmap string value :=
    {[ Attributes.VOLUME := VInt 30; Attributes.MUTED := VNone ]} in
  let delta : gmap string value := {[ Attributes.VOLUME := VInt 30 ]} in
  filter_changed_attributes sample_entity update = Return delta /\
  (is_Some (delta !! Attributes.VOLUME) <->
   exists v, update !! Attributes.VOLUME = Some v /\ v ≠ VNone /\
             unrecorded_or_differs sample_entity Attributes.VOLUME v).
Proof.
  intros update delta.
  assert (filter_changed_attributes sample_entity update = Return delta) as Hret
    by (vm_compute; reflexivity).
  split; [exact Hret|].
  assert (¬ (delta !! Attributes.STATE = Some (VState States.OFF)
             /\ Attributes.VOLUME ∈ cleared_attributes)) as Hoff
    by (intros [H _]; vm_compute in H; discriminate).
  pose proof (filter_changed_attributes_delta
                sample_entity update delta Attributes.VOLUME Hret Hoff) as H.
  rewrite H. split.
  - intros [[Hk _]|[[_ Hv]|[[Hk _]|[(_ & Hk & _)|(_ & Hk & _)]]]];
      try discriminate. exact Hv.
  - intros Hv. right; left. split; [decide_elem|exact Hv].
Defined.

(** Refutes [plain_difference] for an empty delta, at a key that the update
    supplies with the value [v]. *)
Ltac refute_plain_difference v :=
  let H := fresh in
  let x := fresh in
  let Hx := fresh in
  intros [_ H];
  destruct H as [x Hx];
  [ exists v; split; [reflexivity|];
    let old := fresh in
    let Hold := fresh in
    intros old Hold; vm_compute in Hold;
    first [ discriminate Hold | injection Hold as <-; reflexivity ]
  | vm_compute in Hx; discriminate Hx ].

(** C1, counterexample.  The delta is not the plain difference of the two
    mappings.  For the entity of a receiver without sound-mode support, as
    constructed, the delta is empty when the update supplies a sound mode
    (which the entity does not record), a muted value of [None] (the entity
    records [False]), a media type (not recorded) or the receiver state
    UNAVAILABLE (the entity records the entity state UNAVAILABLE, another
    value); so it is for an entity that records nothing and an update that
    supplies a source list. *)
Lemma filter_changed_attributes_delta_counterexample :
  (let update : gmap string value := {[ Attributes.SOUND_MODE := VStr "STEREO" ]} in
   filter_changed_attributes sample_entity update = Return ∅ /\
   ¬ plain_difference sample_entity update ∅ Attributes.SOUND_MODE) /\
  (let update : gmap string value := {[ Attributes.MUTED := VNone ]} in
   filter_changed_attributes sample_entity update = Return ∅ /\
   ¬ plain_difference sample_entity update ∅ Attributes.MUTED) /\
  (let update : gmap string value := {[ Attributes.MEDIA_TYPE := VStr "MUSIC" ]} in
   filter_changed_attributes sample_entity update = Return ∅ /\
   ¬ plain_difference sample_entity update ∅ Attributes.MEDIA_TYPE) /\
  (let update : gmap string value :=
     {[ Attributes.STATE := VAvrState avr.States.UNAVAILABLE ]} in
   filter_changed_attributes sample_entity update = Return ∅ /\
   ¬ plain_difference sample_entity update ∅ Attributes.STATE) /\
  (let update : gmap string value := {[ Attributes.SOURCE_LIST := VList ["CD"] ]} in
   filter_changed_attributes (with_attributes sample_entity ∅) update = Return ∅ /\
   ¬ plain_difference (with_attributes sample_entity ∅) update ∅
       Attributes.SOURCE_LIST).
Proof.
  repeat split; try (vm_compute; reflexivity).
  - refute_plain_difference (VStr "STEREO").
  - refute_plain_difference VNone.
  - refute_plain_difference (VStr "MUSIC").
  - refute_plain_difference (VAvrState avr.States.UNAVAILABLE).
  - refute_plain_difference (VList ["CD"]).
Qed.

(** C2.  Whenever the delta sets the state to OFF, it holds the empty string
    for the media image URL, album, artist, title, media type and source. *)
Theorem off_clears_media self update delta :
  filter_changed_attributes self update = Return delta ->
  delta !! Attributes.STATE = Some (VState States.OFF) ->
  delta !! Attributes.MEDIA_IMAGE_URL = Some (VStr "") /\
  delta !! Attributes.MEDIA_ALBUM = Some (VStr "") /\
  delta !! Attributes.MEDIA_ARTIST = Some (VStr "") /\
  delta !! Attributes.MEDIA_TITLE = Some (VStr "") /\
  delta !! Attributes.MEDIA_TYPE = Some (VStr "") /\
  delta !! Attributes.SOURCE = Some (VStr "").
Proof.
  intros Hret Hoff.
  rewrite (filter_changed_attributes_state _ _ _ Hret) in Hoff.
  assert (forall k, k ∈ cleared_attributes -> delta !! k = Some (VStr "")) as H.
  { intros k Hk. rewrite (filter_changed_attributes_lookup _ _ _ _ Hret).
    rewrite decide_True by done. by rewrite Hoff. }
  repeat split; apply H; decide_elem.
Qed.

(** The OFF rule at the entity of the sample device, for a receiver that
    reports OFF. *)
Lemma off_clears_media_witness :
  let update : gmap string value :=
    {[ Attributes.STATE := VAvrState avr.States.OFF ]} in
  let delta : gmap string value :=
    {[ Attributes.STATE := VState States.OFF;
       Attributes.MEDIA_IMAGE_URL := VStr ""; Attributes.MEDIA_ALBUM := VStr "";
       Attributes.MEDIA_ARTIST := VStr ""; Attributes.MEDIA_TITLE := VStr "";
       Attributes.MEDIA_TYPE := VStr ""; Attributes.SOURCE := VStr "" ]} in
  filter_changed_attributes sample_entity update = Return delta /\
  delta !! Attributes.STATE = Some (VState States.OFF) /\
  delta !! Attributes.MEDIA_TYPE = Some (VStr "").
Proof.
  intros update delta.
  assert (filter_changed_attributes sample_entity update = Return delta) as Hret
    by (vm_compute; reflexivity).
  assert (delta !! Attributes.STATE = Some (VState States.OFF)) as Hoff
    by (vm_compute; reflexivity).
  split; [exact Hret|]. split; [exact Hoff|].
  exact (proj1 (proj2 (proj2 (proj2 (proj2
           (off_clears_media sample_entity update delta Hret Hoff)))))).
Defined.

(** ** Sound mode *)

Lemma init_features_sound_mode device :
  Features.SELECT_SOUND_MODE ∈ init_features device <->
  support_sound_mode device = true.
Proof.
  unfold init_features.
  destruct (support_sound_mode device), (is_denon device); simpl;
    repeat first [ rewrite elem_of_nil | rewrite elem_of_cons ];
    intuition (try discriminate; try congruence).
Qed.

(** Without the SELECT_SOUND_MODE feature the blocks after the state block
    leave nothing under the sound-mode keys. *)
Lemma diff_entry_without_sound_mode self update k :
  Features.SELECT_SOUND_MODE ∉ features self ->
  k = Attributes.SOUND_MODE \/ k = Attributes.SOUND_MODE_LIST ->
  diff_entry self update k = None.
Proof.
  intros Hf Hk. unfold diff_entry.
  rewrite (decide_False (P := k ∈ scalar_attributes))
    by (destruct Hk as [->| ->]; decide_elem).
  rewrite (decide_False (P := k = Attributes.SOURCE_LIST))
    by (destruct Hk as [->| ->]; discriminate).
  by rewrite (decide_False (P := _ ∈ features self)) by done.
Qed.

(** C6.  For an entity constructed for a device without sound-mode support,
    whatever attributes it records since, a delta contains neither the sound
    mode nor the sound-mode list, whatever the update supplies. *)
Theorem no_sound_mode_without_support
    tables device receiver recorded update delta :
  support_sound_mode device = false ->
  filter_changed_attributes
    (with_attributes (__init__ tables device receiver) recorded) update
  = Return delta ->
  delta !! Attributes.SOUND_MODE = None /\
  delta !! Attributes.SOUND_MODE_LIST = None.
Proof.
  intros Hdev Hret.
  assert (Features.SELECT_SOUND_MODE ∉
            features (with_attributes (__init__ tables device receiver) recorded))
    as Hf.
  { simpl. rewrite init_features_sound_mode, Hdev. discriminate. }
  split.
  - rewrite (filter_changed_attributes_lookup _ _ _ _ Hret).
    rewrite (decide_False (P := _ ∈ cleared_attributes)) by decide_elem.
    unfold pre_entry. rewrite decide_False by discriminate.
    apply diff_entry_without_sound_mode; auto.
  - rewrite (filter_changed_attributes_lookup _ _ _ _ Hret).
    rewrite (decide_False (P := _ ∈ cleared_attributes)) by decide_elem.
    unfold pre_entry. rewrite decide_False by discriminate.
    apply diff_entry_without_sound_mode; auto.
Qed.

(** The sample device has no sound-mode support: an update with sound-mode
    keys and a new volume reports the volume only. *)
Lemma no_sound_mode_without_support_witness :
  let recorded : gmap string value :=
    {[ Attributes.STATE := VState States.ON;
       Attributes.SOUND_MODE := VStr "" ]} in
  let update : gmap string value :=
    {[ Attributes.SOUND_MODE := VStr "STEREO";
       Attributes.SOUND_MODE_LIST := VList ["STEREO"; "MOVIE"];
       Attributes.VOLUME := VInt 30 ]} in
  let delta : gmap string value := {[ Attributes.VOLUME := VInt 30 ]} in
  support_sound_mode sample_device = false /\
  filter_changed_attributes (with_attributes sample_entity recorded) update
  = Return delta /\
  delta !! Attributes.SOUND_MODE = None /\
  delta !! Attributes.SOUND_MODE_LIST = None.
Proof.
  intros recorded update delta.
  assert (filter_changed_attributes (with_attributes sample_entity recorded) update
          = Return delta) as Hret by (vm_compute; reflexivity).
  split; [reflexivity|]. split; [exact Hret|].
  apply (no_sound_mode_without_support
           sample_tables sample_device sample_receiver recorded update delta).
  - reflexivity.
  - exact Hret.
Defined.

(** ** Values of [None] *)

(** C10, as amended.  For each scalar attribute of the loop (media artist,
    album, image URL and title, muted, source, volume), when the update
    supplies [None] the delta does not contain the key, whatever the entity
    records, unless the OFF rule forces the key into the delta. *)
Theorem none_is_skipped self update delta k :
  k ∈ scalar_attributes ->
  update !! k = Some VNone ->
  filter_changed_attributes self update = Return delta ->
  ¬ (delta !! Attributes.STATE = Some (VState States.OFF)
     /\ k ∈ cleared_attributes) ->
  delta !! k = None.
Proof.
  intros Hk Hnone Hret Hoff.
  rewrite (filter_changed_attributes_pre _ _ _ _ Hret Hoff).
  unfold pre_entry.
  rewrite decide_False by (intros ->; revert Hk; decide_elem).
  unfold diff_entry. rewrite decide_True by done.
  unfold scalar_entry. by rewrite Hnone.
Qed.

(** A muted value of [None] against a recorded [False]. *)
Lemma none_is_skipped_witness :
  let update : gmap string value :=
    {[ Attributes.MUTED := VNone; Attributes.VOLUME := VInt 30 ]} in
  let delta : gmap string value := {[ Attributes.VOLUME := VInt 30 ]} in
  attributes sample_entity !! Attributes.MUTED = Some (VBool false) /\
  update !! Attributes.MUTED = Some VNone /\
  filter_changed_attributes sample_entity update = Return delta /\
  delta !! Attributes.MUTED = None.
Proof.
  intros update delta.
  assert (filter_changed_attributes sample_entity update = Return delta) as Hret
    by (vm_compute; reflexivity).
  split; [vm_compute; reflexivity|].
  split; [vm_compute; reflexivity|].
  split; [exact Hret|].
  apply (none_is_skipped sample_entity update delta Attributes.MUTED).
  - decide_elem.
  - vm_compute; reflexivity.
  - exact Hret.
  - intros [H _]. vm_compute in H. discriminate H.
Defined.

(** C10, counterexample.  A state of [None] is not skipped: it is translated
    to UNKNOWN before it is compared, and an entity that records another state
    gets UNKNOWN in its delta. *)
Lemma none_state_counterexample :
  let update : gmap string value := {[ Attributes.STATE := VNone ]} in
  attributes sample_entity !! Attributes.STATE = Some (VState States.UNAVAILABLE) /\
  update !! Attributes.STATE = Some VNone /\
  filter_changed_attributes sample_entity update
  = Return {[ Attributes.STATE := VState States.UNKNOWN ]}.
Proof. repeat split; vm_compute; reflexivity. Qed.

(** ** The state mapping *)

(** C5.  The mapping is total: every receiver state maps to the entity state
    of the same name, and every value outside the receiver states that the
    mapping can be asked for (a hashable value, as the members of the
    enumerations, [None], numbers and strings are) maps to UNKNOWN. *)
Theorem state_from_avr_mapping :
  state_from_avr (VAvrState avr.States.ON) = Return States.ON /\
  state_from_avr (VAvrState avr.States.OFF) = Return States.OFF /\
  state_from_avr (VAvrState avr.States.PAUSED) = Return States.PAUSED /\
  state_from_avr (VAvrState avr.States.PLAYING) = Return States.PLAYING /\
  state_from_avr (VAvrState avr.States.UNAVAILABLE) = Return States.UNAVAILABLE /\
  state_from_avr (VAvrState avr.States.UNKNOWN) = Return States.UNKNOWN /\
  forall v, hashable v = true -> (forall s, v ≠ VAvrState s) ->
            state_from_avr v = Return States.UNKNOWN.
Proof.
  repeat split; try reflexivity.
  intros v Hh Hv. destruct v as [| | | |l|s|]; try reflexivity.
  - discriminate Hh.
  - by destruct (Hv s).
Qed.

(** A string is hashable and no receiver state. *)
Lemma state_from_avr_mapping_witness :
  hashable (VStr "STANDBY") = true /\
  state_from_avr (VStr "STANDBY") = Return States.UNKNOWN.
Proof.
  split; [reflexivity|].
  apply (proj2 (proj2 (proj2 (proj2 (proj2 (proj2 state_from_avr_mapping)))))).
  - reflexivity.
  - intros s. discriminate.
Defined.

(** ** The command handler *)

(** A command that has no case of its own fails every comparison of the
    [match]. *)
Lemma not_structured_eqb cmd_id c :
  cmd_id ∉ structured_commands -> c ∈ structured_commands ->
  String.eqb cmd_id c = false.
Proof.
  intros Hn Hc. apply String.eqb_neq. intros ->. by apply Hn.
Qed.

(** C8.  Without a bound receiver every command returns SERVICE_UNAVAILABLE;
    no operation is invoked and the entity is left as it is. *)
Theorem command_without_receiver tables cmd_id params env :
  _receiver (self env) = None ->
  command tables cmd_id params env = (Return StatusCodes.SERVICE_UNAVAILABLE, env).
Proof.
  intros Hr. unfold command, bind, get_self. by rewrite Hr.
Qed.

(** The sample entity without its receiver, asked to set the volume. *)
Lemma command_without_receiver_witness :
  let unbound :=
    {| _receiver := None; id := "media_player.avr1"; name := "Living room";
       features := init_features sample_device;
       attributes := init_attributes sample_device;
       simple_commands := init_simple_commands sample_tables sample_device |} in
  let env := {| self := unbound; invoked := [] |} in
  _receiver (self env) = None /\
  command sample_tables Commands.VOLUME None env
  = (Return StatusCodes.SERVICE_UNAVAILABLE, env).
Proof.
  intros unbound env. split; [reflexivity|].
  apply (command_without_receiver sample_tables Commands.VOLUME None env).
  reflexivity.
Defined.

(** C3, as amended.  With a bound receiver, a command that has no case of its
    own and is not in the table ALL_COMMANDS_TELNET_DENON returns
    NOT_IMPLEMENTED; no operation is invoked and the entity is left as it
    is. *)
Theorem command_not_implemented tables cmd_id params env receiver :
  _receiver (self env) = Some receiver ->
  cmd_id ∉ structured_commands ->
  cmd_id ∉ ALL_COMMANDS_TELNET_DENON tables ->
  command tables cmd_id params env = (Return StatusCodes.NOT_IMPLEMENTED, env).
Proof.
  intros Hr Hs Ht. unfold command, bind, get_self. rewrite Hr.
  unfold command_match.
  repeat (rewrite (not_structured_eqb cmd_id) by
            (first [ exact Hs | unfold structured_commands; decide_elem ])).
  by rewrite bool_decide_eq_false_2 by done.
Qed.

(** A command in none of the tables, sent to the sample entity. *)
Lemma command_not_implemented_witness :
  let env := {| self := sample_entity; invoked := [] |} in
  _receiver (self env) = Some sample_receiver /\
  command sample_tables "SELF_DESTRUCT" None env
  = (Return StatusCodes.NOT_IMPLEMENTED, env).
Proof.
  intros env. split; [reflexivity|].
  apply (command_not_implemented sample_tables "SELF_DESTRUCT" None env
           sample_receiver).
  - reflexivity.
  - unfold structured_commands. decide_elem.
  - simpl. decide_elem.
Defined.

(** X12.  A command of the table ALL_COMMANDS_TELNET_DENON that has no case
    of its own is forwarded, whatever the simple commands of the entity
    are. *)
Lemma command_forwards_simple_command tables cmd_id params env receiver :
  _receiver (self env) = Some receiver ->
  cmd_id ∉ structured_commands ->
  cmd_id ∈ ALL_COMMANDS_TELNET_DENON tables ->
  command tables cmd_id params env
  = (Return (respond receiver (send_simple_command cmd_id)),
     {| self := self env;
        invoked := invoked env ++ [send_simple_command cmd_id] |}).
Proof.
  intros Hr Hs Ht. unfold command, bind, get_self. rewrite Hr.
  unfold command_match.
  repeat (rewrite (not_structured_eqb cmd_id) by
            (first [ exact Hs | unfold structured_commands; decide_elem ])).
  by rewrite bool_decide_eq_true_2 by done.
Qed.

(** C3, counterexample.  With tables in which the Denon telnet table extends
    the shared one, the entity of a generic receiver without telnet forwards a
    Denon command that is not among its simple commands. *)
Lemma command_simple_command_counterexample :
  let env := {| self := sample_entity; invoked := [] |} in
  _receiver (self env) = Some sample_receiver /\
  ("DELAY_UP" ∉ structured_commands) /\
  ("DELAY_UP" ∉ simple_commands sample_entity) /\
  command sample_tables "DELAY_UP" None env
  = (Return StatusCodes.OK,
     {| self := sample_entity; invoked := [send_simple_command "DELAY_UP"] |}).
Proof.
  intros env. split; [reflexivity|].
  split; [unfold structured_commands; decide_elem|].
  split; [change (simple_commands sample_entity) with ["OUTPUT_1"]; decide_elem|].
  vm_compute. reflexivity.
Qed.

(** Whatever value is recorded for muted, the toggle invokes the mute
    operation with the negation of its truth value. *)
Lemma mute_toggle_truthiness tables params env receiver (v : value) :
  _receiver (self env) = Some receiver ->
  attributes (self env) !! Attributes.MUTED = Some v ->
  command tables Commands.MUTE_TOGGLE params env
  = (Return (respond receiver (mute (negb (truthy v)))),
     {| self := self env; invoked := invoked env ++ [mute (negb (truthy v))] |}).
Proof.
  intros Hr Hm. unfold command, bind, get_self. rewrite Hr.
  unfold command_match, bind, subscript. simpl String.eqb. cbv iota.
  by rewrite Hm.
Qed.

(** C7, as amended.  With a bound receiver, MUTE_TOGGLE invokes the mute
    operation with the negation of the muted attribute the entity records:
    [mute(False)] when it records [True], [mute(True)] when it records
    [False]; the status code of the operation is returned. *)
Theorem mute_toggle_negates tables params env receiver (b : bool) :
  _receiver (self env) = Some receiver ->
  attributes (self env) !! Attributes.MUTED = Some (VBool b) ->
  command tables Commands.MUTE_TOGGLE params env
  = (Return (respond receiver (mute (negb b))),
     {| self := self env; invoked := invoked env ++ [mute (negb b)] |}).
Proof.
  intros Hr Hm. unfold command, bind, get_self. rewrite Hr.
  unfold command_match, bind, subscript. simpl String.eqb. cbv iota.
  by rewrite Hm.
Qed.

(** The sample entity records [False] for muted: the toggle mutes. *)
Lemma mute_toggle_negates_witness :
  let env := {| self := sample_entity; invoked := [] |} in
  attributes (self env) !! Attributes.MUTED = Some (VBool false) /\
  command sample_tables Commands.MUTE_TOGGLE None env
  = (Return StatusCodes.OK,
     {| self := sample_entity; invoked := [mute true] |}).
Proof.
  intros env.
  assert (attributes (self env) !! Attributes.MUTED = Some (VBool false)) as Hm
    by (vm_compute; reflexivity).
  split; [exact Hm|].
  exact (mute_toggle_negates sample_tables None env sample_receiver false
           eq_refl Hm).
Defined.

(** C7, counterexample.  When the entity records no muted attribute, the
    lookup raises [KeyError] and no operation is invoked. *)
Lemma mute_toggle_absent_counterexample :
  let env := {| self := with_attributes sample_entity ∅; invoked := [] |} in
  _receiver (self env) = Some sample_receiver /\
  attributes (self env) !! Attributes.MUTED = None /\
  command sample_tables Commands.MUTE_TOGGLE None env = (Raise KeyError, env).
Proof. repeat split. Qed.

(** ** The driver *)

(** When the receiver of an entity is configured and the entity identifier
    itself is no key of the map, the lookup under the entity identifier
    raises [KeyError]: nothing is disconnected and the rest of the entities
    is not visited. *)
Lemma on_unsubscribe_entities_wrong_key
    (avr_from_entity_id : string -> option string)
    entity_id avr_id rest (avrs : gmap string driver.Receiver) :
  avr_from_entity_id entity_id = Some avr_id ->
  is_Some (avrs !! avr_id) ->
  avrs !! entity_id = None ->
  driver.on_unsubscribe_entities avr_from_entity_id (entity_id :: rest) avrs
  = (Raise KeyError, avrs).
Proof.
  intros Hid Hin Hout. simpl. rewrite Hid.
  rewrite bool_decide_eq_true_2 by done. by rewrite Hout.
Qed.

(** C4.  Unsubscribing the media-player entity of a configured, connected
    receiver raises [KeyError]: the receiver stays connected and keeps the
    listeners of the driver. *)
Theorem on_unsubscribe_entities_raises :
  let _configured_avrs : gmap string driver.Receiver := {[ "avr1" := sample_avr ]} in
  config.avr_from_entity_id "media_player.avr1" = Some "avr1" /\
  driver.on_unsubscribe_entities config.avr_from_entity_id
    ["media_player.avr1"] _configured_avrs
  = (Raise KeyError, _configured_avrs) /\
  (driver.connected <$> _configured_avrs !! "avr1") = Some true /\
  (driver.listeners <$> _configured_avrs !! "avr1") = Some driver.driver_listeners.
Proof.
  intros avrs. split; [reflexivity|]. split.
  - apply on_unsubscribe_entities_wrong_key with (avr_id := "avr1").
    + reflexivity.
    + by exists sample_avr.
    + reflexivity.
  - split; reflexivity.
Qed.




(** An interval above ten seconds, which no caller of the poller asks for,
    is capped at ten seconds: with twenty seconds and half a second of work
    the poller sleeps ten seconds. *)
Theorem poller_sleep_capped_at_ten :
  (driver.poller_sleep 20 0 (1#2) == 10)%Q /\
  (driver.spec_poller_sleep 20 (1#2) == 39#2)%Q /\
  ¬ (driver.poller_sleep 20 0 (1#2) == driver.spec_poller_sleep 20 (1#2))%Q.
Proof.
  split; [reflexivity|]. split; [reflexivity|].
  intros H. vm_compute in H. discriminate H.
Qed.

(** * Further properties *)

(** ** Storing deltas *)

Lemma py_eq_refl v : py_eq v v = true.
Proof. destruct v; simpl; by rewrite ?bool_decide_eq_true. Qed.

Lemma update_attributes_lookup self delta k :
  attributes (update_attributes self delta) !! k =
  or_else (delta !! k) (attributes self !! k).
Proof.
  unfold update_attributes. simpl. rewrite lookup_union.
  by destruct (delta !! k), (attributes self !! k).
Qed.

Lemma scalar_changed_stored self delta key v :
  delta !! key = (if scalar_changed self key v then Some v else None) ->
  scalar_changed (update_attributes self delta) key v = false.
Proof.
  intros Hd. unfold scalar_changed at 1.
  rewrite update_attributes_lookup, Hd.
  destruct (scalar_changed self key v) eqn:Hc; simpl.
  - unfold py_ne. rewrite py_eq_refl. apply andb_false_r.
  - exact Hc.
Qed.

Lemma list_changed_stored self delta key v :
  delta !! key = (if list_changed self key v then Some v else None) ->
  list_changed (update_attributes self delta) key v = false.
Proof.
  intros Hd. unfold list_changed at 1.
  rewrite update_attributes_lookup, Hd.
  destruct (list_changed self key v) eqn:Hc; simpl.
  - unfold py_ne. by rewrite py_eq_refl.
  - exact Hc.
Qed.

Lemma scalar_entry_stored self update delta key :
  delta !! key = scalar_entry self update key ->
  scalar_entry (update_attributes self delta) update key = None.
Proof.
  unfold scalar_entry. destruct (update !! key) as [v|]; [|done].
  intros Hd. by rewrite scalar_changed_stored.
Qed.

Lemma list_entry_stored self update delta key :
  delta !! key = list_entry self update key ->
  list_entry (update_attributes self delta) update key = None.
Proof.
  unfold list_entry. destruct (update !! key) as [v|]; [|done].
  intros Hd. by rewrite list_changed_stored.
Qed.

Lemma state_entry_stored self update delta :
  delta !! Attributes.STATE = state_entry self update ->
  state_entry (update_attributes self delta) update = None.
Proof.
  unfold state_entry. destruct (update !! Attributes.STATE) as [v|]; [|done].
  destruct (state_from_avr v) as [s|e]; [|done].
  intros Hd. by rewrite scalar_changed_stored.
Qed.

(** Once a key of the delta is stored as the blocks left it, the blocks leave
    nothing under it for the same update. *)
Lemma pre_entry_stored self update delta k :
  delta !! k = pre_entry self update k ->
  pre_entry (update_attributes self delta) update k = None.
Proof.
  unfold pre_entry. case_decide as Hs.
  - subst k. apply state_entry_stored.
  - unfold diff_entry. simpl features.
    repeat case_decide; auto using scalar_entry_stored, list_entry_stored.
Qed.

(** Whether [filter_changed_attributes] returns depends on the update
    only. *)
Lemma filter_changed_attributes_returns_for self self' update delta :
  filter_changed_attributes self update = Return delta ->
  exists delta', filter_changed_attributes self' update = Return delta'.
Proof.
  unfold filter_changed_attributes.
  destruct (update !! Attributes.STATE) as [v|]; [|by eexists].
  destruct (state_from_avr v) as [s|e]; [by eexists | discriminate].
Qed.

(** X1.  When a delta that does not switch the state to OFF is stored in the
    entity, the same update yields the empty delta. *)
Theorem filter_changed_attributes_settles self update delta :
  filter_changed_attributes self update = Return delta ->
  delta !! Attributes.STATE ≠ Some (VState States.OFF) ->
  filter_changed_attributes (update_attributes self delta) update = Return ∅.
Proof.
  intros Hret Hoff.
  destruct (filter_changed_attributes_returns_for
              self (update_attributes self delta) update delta Hret)
    as [delta' Hret'].
  rewrite Hret'. f_equal. apply map_eq. intros k. rewrite lookup_empty.
  assert (forall j, pre_entry (update_attributes self delta) update j = None)
    as Hpre.
  { intros j. apply pre_entry_stored.
    apply (filter_changed_attributes_pre _ _ _ _ Hret). by intros [? _]. }
  rewrite (filter_changed_attributes_lookup _ _ _ _ Hret'), !Hpre.
  replace (state_entry (update_attributes self delta) update)
    with (@None value); [by case_decide|].
  symmetry. specialize (Hpre Attributes.STATE).
  unfold pre_entry in Hpre. by rewrite decide_True in Hpre by done.
Qed.

(** A receiver that starts playing: the delta is stored and the same report
    changes nothing any more. *)
Lemma filter_changed_attributes_settles_witness :
  let update : gmap string value :=
    {[ Attributes.STATE := VAvrState avr.States.PLAYING;
       Attributes.MEDIA_TITLE := VStr "Song"; Attributes.VOLUME := VInt 30;
       Attributes.SOURCE_LIST := VList ["CD"; "TV"] ]} in
  let delta : gmap string value :=
    {[ Attributes.STATE := VState States.PLAYING;
       Attributes.MEDIA_TITLE := VStr "Song"; Attributes.VOLUME := VInt 30;
       Attributes.SOURCE_LIST := VList ["CD"; "TV"] ]} in
  filter_changed_attributes sample_entity update = Return delta /\
  filter_changed_attributes (update_attributes sample_entity delta) update
  = Return ∅.
Proof.
  intros update delta.
  assert (filter_changed_attributes sample_entity update = Return delta) as Hret
    by (vm_compute; reflexivity).
  split; [exact Hret|].
  apply (filter_changed_attributes_settles sample_entity update delta Hret).
  vm_compute. discriminate.
Defined.

(** X2.  When the delta switches the state to OFF while the update supplies
    a media field or source that is neither [None] nor the empty string, the
    delta clears the field, and once it is stored the same update reports the
    field again with the value of the update. *)
Theorem cleared_field_reported_again self update delta k v :
  filter_changed_attributes self update = Return delta ->
  delta !! Attributes.STATE = Some (VState States.OFF) ->
  k ∈ reported_and_cleared ->
  update !! k = Some v -> v ≠ VNone -> py_eq (VStr "") v = false ->
  delta !! k = Some (VStr "") /\
  exists delta',
    filter_changed_attributes (update_attributes self delta) update
    = Return delta' /\
    delta' !! Attributes.STATE = None /\
    delta' !! k = Some v.
Proof.
  intros Hret Hoff Hk Hv Hnone Hne.
  assert (k ∈ cleared_attributes) as Hc
    by (revert Hk; unfold reported_and_cleared; decide_elem).
  assert (k ∈ scalar_attributes) as Hsc
    by (revert Hk; unfold reported_and_cleared; decide_elem).
  assert (k ≠ Attributes.STATE) as Hks
    by (intros ->; revert Hk; unfold reported_and_cleared; decide_elem).
  assert (delta !! k = Some (VStr "")) as Hdk.
  { rewrite (filter_changed_attributes_lookup _ _ _ _ Hret).
    rewrite decide_True by done.
    rewrite <- (filter_changed_attributes_state _ _ _ Hret), Hoff. done. }
  split; [exact Hdk|].
  destruct (filter_changed_attributes_returns_for
              self (update_attributes self delta) update delta Hret)
    as [delta' Hret'].
  exists delta'. split; [exact Hret'|].
  assert (delta' !! Attributes.STATE = None) as Hst.
  { rewrite (filter_changed_attributes_state _ _ _ Hret').
    apply state_entry_stored. apply (filter_changed_attributes_state _ _ _ Hret). }
  split; [exact Hst|].
  rewrite (filter_changed_attributes_pre _ _ _ _ Hret')
    by (rewrite Hst; by intros [? _]).
  unfold pre_entry. rewrite decide_False by done.
  unfold diff_entry. rewrite decide_True by done.
  unfold scalar_entry. rewrite Hv.
  assert (scalar_changed (update_attributes self delta) k v = true) as ->; [|done].
  apply scalar_changed_spec. split; [done|].
  intros old. rewrite update_attributes_lookup, Hdk. simpl.
  by intros [= <-].
Qed.

(** A receiver that reports OFF together with the title it last played. *)
Lemma cleared_field_reported_again_witness :
  let update : gmap string value :=
    {[ Attributes.STATE := VAvrState avr.States.OFF;
       Attributes.MEDIA_TITLE := VStr "Song" ]} in
  let delta : gmap string value :=
    {[ Attributes.STATE := VState States.OFF;
       Attributes.MEDIA_IMAGE_URL := VStr ""; Attributes.MEDIA_ALBUM := VStr "";
       Attributes.MEDIA_ARTIST := VStr ""; Attributes.MEDIA_TITLE := VStr "";
       Attributes.MEDIA_TYPE := VStr ""; Attributes.SOURCE := VStr "" ]} in
  filter_changed_attributes sample_entity update = Return delta /\
  delta !! Attributes.MEDIA_TITLE = Some (VStr "") /\
  exists delta',
    filter_changed_attributes (update_attributes sample_entity delta) update
    = Return delta' /\
    delta' !! Attributes.STATE = None /\
    delta' !! Attributes.MEDIA_TITLE = Some (VStr "Song").
Proof.
  intros update delta.
  assert (filter_changed_attributes sample_entity update = Return delta) as Hret
    by (vm_compute; reflexivity).
  split; [exact Hret|].
  apply (cleared_field_reported_again sample_entity update delta
           Attributes.MEDIA_TITLE (VStr "Song") Hret).
  - vm_compute; reflexivity.
  - unfold reported_and_cleared. decide_elem.
  - vm_compute; reflexivity.
  - discriminate.
  - reflexivity.
Defined.

(** ** Where the entries of a delta come from *)

Lemma scalar_entry_Some self update key w :
  scalar_entry self update key = Some w -> update !! key = Some w.
Proof.
  unfold scalar_entry. destruct (update !! key) as [v|]; [|discriminate].
  destruct (scalar_changed self key v); [|discriminate]. by intros [= <-].
Qed.

Lemma list_entry_Some self update key w :
  list_entry self update key = Some w -> update !! key = Some w.
Proof.
  unfold list_entry. destruct (update !! key) as [v|]; [|discriminate].
  destruct (list_changed self key v); [|discriminate]. by intros [= <-].
Qed.

Lemma diff_entry_Some self update k w :
  diff_entry self update k = Some w -> update !! k = Some w.
Proof.
  unfold diff_entry.
  repeat case_decide; try discriminate;
    eauto using scalar_entry_Some, list_entry_Some.
Qed.

Lemma state_entry_Some self update w :
  state_entry self update = Some w ->
  exists v s, update !! Attributes.STATE = Some v /\
              state_from_avr v = Return s /\ w = VState s.
Proof.
  unfold state_entry.
  destruct (update !! Attributes.STATE) as [v|]; [|discriminate].
  destruct (state_from_avr v) as [s|e] eqn:Hs; [|discriminate].
  destruct (scalar_changed _ _ _); [|discriminate].
  intros [= <-]. by exists v, s.
Qed.

(** X3.  A delta holds no value of its own making: under the state key it
    holds the translation of the state the update supplies; under any other
    key it holds the value the update supplies for that key, or the empty
    string that the OFF rule puts under a cleared key when the delta switches
    the state to OFF. *)
Theorem filter_changed_attributes_provenance self update delta k w :
  filter_changed_attributes self update = Return delta ->
  delta !! k = Some w ->
  (k = Attributes.STATE /\
   exists v s, update !! k = Some v /\ state_from_avr v = Return s /\
               w = VState s)
  \/ (k ≠ Attributes.STATE /\ update !! k = Some w)
  \/ (k ∈ cleared_attributes /\ w = VStr "" /\
      delta !! Attributes.STATE = Some (VState States.OFF)).
Proof.
  intros Hret Hk.
  assert (pre_entry self update k = Some w ->
          (k = Attributes.STATE /\
           exists v s, update !! k = Some v /\ state_from_avr v = Return s /\
                       w = VState s)
          \/ (k ≠ Attributes.STATE /\ update !! k = Some w)) as Hpre.
  { unfold pre_entry. case_decide as Hs.
    - subst k. intros H%state_entry_Some. by left.
    - intros H%diff_entry_Some. by right. }
  rewrite (filter_changed_attributes_lookup _ _ _ _ Hret) in Hk.
  destruct (decide (k ∈ cleared_attributes)) as [Hc|Hc];
    [|destruct (Hpre Hk) as [?|?]; auto].
  destruct (state_entry self update) as [st|] eqn:Hst;
    [|destruct (Hpre Hk) as [?|?]; auto].
  destruct (py_eq st (VState States.OFF)) eqn:Hoff;
    [|destruct (Hpre Hk) as [?|?]; auto].
  right; right. split; [done|]. split; [congruence|].
  rewrite (filter_changed_attributes_state _ _ _ Hret), Hst.
  f_equal. by apply py_eq_state_off.
Qed.

(** The volume of a delta is the volume of the update. *)
Lemma filter_changed_attributes_provenance_witness :
  let update : gmap string value :=
    {[ Attributes.VOLUME := VInt 30; Attributes.MUTED := VBool false ]} in
  let delta : gmap string value := {[ Attributes.VOLUME := VInt 30 ]} in
  filter_changed_attributes sample_entity update = Return delta /\
  delta !! Attributes.VOLUME = Some (VInt 30) /\
  update !! Attributes.VOLUME = Some (VInt 30).
Proof.
  intros update delta.
  assert (filter_changed_attributes sample_entity update = Return delta) as Hret
    by (vm_compute; reflexivity).
  assert (delta !! Attributes.VOLUME = Some (VInt 30)) as Hk
    by (vm_compute; reflexivity).
  split; [exact Hret|]. split; [exact Hk|].
  destruct (filter_changed_attributes_provenance
              sample_entity update delta Attributes.VOLUME (VInt 30) Hret Hk)
    as [[Hs _]|[[_ Hu]|[Hc _]]].
  - discriminate Hs.
  - exact Hu.
  - exfalso. revert Hc. decide_elem.
Defined.

(** X4.  The state of a delta is a member of the entity state enumeration:
    never a receiver state as the update supplies it, never [None]. *)
Theorem filter_changed_attributes_state_is_entity_state self update delta w :
  filter_changed_attributes self update = Return delta ->
  delta !! Attributes.STATE = Some w ->
  exists s, w = VState s.
Proof.
  intros Hret Hw.
  rewrite (filter_changed_attributes_state _ _ _ Hret) in Hw.
  by apply state_entry_is_state in Hw.
Qed.

(** A receiver state in the update, an entity state in the delta. *)
Lemma filter_changed_attributes_state_is_entity_state_witness :
  let update : gmap string value :=
    {[ Attributes.STATE := VAvrState avr.States.PAUSED ]} in
  let delta : gmap string value :=
    {[ Attributes.STATE := VState States.PAUSED ]} in
  filter_changed_attributes sample_entity update = Return delta /\
  exists s, VState States.PAUSED = VState s.
Proof.
  intros update delta.
  assert (filter_changed_attributes sample_entity update = Return delta) as Hret
    by (vm_compute; reflexivity).
  split; [exact Hret|].
  apply (filter_changed_attributes_state_is_entity_state
           sample_entity update delta (VState States.PAUSED) Hret).
  vm_compute; reflexivity.
Defined.

(** X5.  [filter_changed_attributes] raises exactly when the update supplies
    a list as the state, and the exception is [TypeError]; the attributes
    the entity records play no part. *)
Theorem filter_changed_attributes_raises_iff self update e :
  filter_changed_attributes self update = Raise e <->
  e = TypeError /\ exists l, update !! Attributes.STATE = Some (VList l).
Proof.
  unfold filter_changed_attributes, state_from_avr. split.
  - destruct (update !! Attributes.STATE) as [v|]; [|discriminate].
    destruct v as [| | | |l|s|]; simpl; try discriminate.
    + intros [= <-]. eauto.
    + destruct s; discriminate.
  - intros (-> & l & ->). reflexivity.
Qed.

(** A list as the state of the update. *)
Lemma filter_changed_attributes_raises_iff_witness :
  filter_changed_attributes sample_entity
    {[ Attributes.STATE := VList ["ON"] ]} = Raise TypeError.
Proof.
  apply (proj2 (filter_changed_attributes_raises_iff sample_entity
                  {[ Attributes.STATE := VList ["ON"] ]} TypeError)).
  split; [reflexivity|]. exists ["ON"]. reflexivity.
Defined.

(** X6.  The media type is in a delta only when the delta switches the state
    to OFF, and then it is the empty string: the media type of an update is
    never reported. *)
Theorem media_type_only_when_off self update delta w :
  filter_changed_attributes self update = Return delta ->
  delta !! Attributes.MEDIA_TYPE = Some w ->
  w = VStr "" /\ delta !! Attributes.STATE = Some (VState States.OFF).
Proof.
  intros Hret Hw.
  rewrite (filter_changed_attributes_lookup _ _ _ _ Hret) in Hw.
  rewrite (filter_changed_attributes_state _ _ _ Hret).
  assert (pre_entry self update Attributes.MEDIA_TYPE = None) as Hpre.
  { unfold pre_entry, diff_entry.
    rewrite (decide_False (P := _ = Attributes.STATE)) by discriminate.
    rewrite (decide_False (P := _ ∈ scalar_attributes)) by decide_elem.
    rewrite (decide_False (P := _ = Attributes.SOURCE_LIST)) by discriminate.
    destruct (decide (_ ∈ features self)); [|done].
    rewrite (decide_False (P := _ = Attributes.SOUND_MODE)) by discriminate.
    by rewrite (decide_False (P := _ = Attributes.SOUND_MODE_LIST))
      by discriminate. }
  rewrite Hpre in Hw.
  rewrite (decide_True (P := _ ∈ cleared_attributes)) in Hw by decide_elem.
  destruct (state_entry self update) as [st|]; [|discriminate].
  destruct (py_eq st (VState States.OFF)) eqn:Hoff; [|discriminate].
  apply py_eq_state_off in Hoff as ->. split; congruence.
Qed.

(** A receiver that reports OFF and a media type. *)
Lemma media_type_only_when_off_witness :
  let update : gmap string value :=
    {[ Attributes.STATE := VAvrState avr.States.OFF;
       Attributes.MEDIA_TYPE := VStr "MUSIC" ]} in
  let delta : gmap string value :=
    {[ Attributes.STATE := VState States.OFF;
       Attributes.MEDIA_IMAGE_URL := VStr ""; Attributes.MEDIA_ALBUM := VStr "";
       Attributes.MEDIA_ARTIST := VStr ""; Attributes.MEDIA_TITLE := VStr "";
       Attributes.MEDIA_TYPE := VStr ""; Attributes.SOURCE := VStr "" ]} in
  filter_changed_attributes sample_entity update = Return delta /\
  delta !! Attributes.MEDIA_TYPE = Some (VStr "") /\
  delta !! Attributes.STATE = Some (VState States.OFF).
Proof.
  intros update delta.
  assert (filter_changed_attributes sample_entity update = Return delta) as Hret
    by (vm_compute; reflexivity).
  assert (delta !! Attributes.MEDIA_TYPE = Some (VStr "")) as Hw
    by (vm_compute; reflexivity).
  split; [exact Hret|]. split; [exact Hw|].
  exact (proj2 (media_type_only_when_off sample_entity update delta (VStr "")
                  Hret Hw)).
Defined.

(** ** A new entity *)

Lemma init_features_stop device :
  Features.STOP ∈ init_features device <-> is_denon device = true.
Proof.
  unfold init_features.
  destruct (support_sound_mode device), (is_denon device); simpl;
    repeat first [ rewrite elem_of_nil | rewrite elem_of_cons ];
    intuition (try discriminate; try congruence).
Qed.

(** X7.  A new entity has the SELECT_SOUND_MODE feature exactly when it
    records a sound mode, exactly when it records a sound-mode list, and
    exactly when the device supports sound modes; it has the STOP feature
    exactly when the device is a Denon. *)
Theorem init_features_match_attributes tables device receiver :
  let entity := __init__ tables device receiver in
  (Features.SELECT_SOUND_MODE ∈ features entity <->
   is_Some (attributes entity !! Attributes.SOUND_MODE)) /\
  (Features.SELECT_SOUND_MODE ∈ features entity <->
   is_Some (attributes entity !! Attributes.SOUND_MODE_LIST)) /\
  (Features.SELECT_SOUND_MODE ∈ features entity <->
   support_sound_mode device = true) /\
  (Features.STOP ∈ features entity <-> is_denon device = true).
Proof.
  simpl. rewrite init_features_sound_mode, init_features_stop.
  unfold init_attributes.
  destruct (support_sound_mode device); repeat split;
    try done; try (intros _; by eexists); try (by intros [? [=]]).
Qed.

(** X8.  On a new entity, whatever the device, MUTE_TOGGLE finds the muted
    attribute, invokes [mute(True)] and returns the status code of the
    receiver. *)
Theorem mute_toggle_on_new_entity tables device receiver params log :
  command tables Commands.MUTE_TOGGLE params
    {| self := __init__ tables device receiver; invoked := log |}
  = (Return (respond receiver (mute true)),
     {| self := __init__ tables device receiver;
        invoked := log ++ [mute true] |}).
Proof.
  apply (mute_toggle_truthiness tables params
           {| self := __init__ tables device receiver; invoked := log |}
           receiver (VBool false)); [reflexivity|].
  simpl. unfold init_attributes. by destruct (support_sound_mode device).
Qed.

(** ** More of the command handler *)

(** Closes a leaf of [command_frame]: picks the outcome that holds. *)
Ltac frame_leaf :=
  first
    [ by left
    | by right; left
    | by right; right; eexists _
    | by right; right; eexists _, _ ].

(** X9.  A command ends in one of four ways.  Without a bound receiver it
    returns SERVICE_UNAVAILABLE.  With a bound receiver it returns
    NOT_IMPLEMENTED, or raises [AttributeError] or [KeyError], or invokes
    exactly one operation on the receiver and returns the status code of
    that operation.  In the first three cases nothing is invoked, and in all
    four the entity is left as it is. *)
Theorem command_frame tables cmd_id params env :
  (_receiver (self env) = None /\
   command tables cmd_id params env
   = (Return StatusCodes.SERVICE_UNAVAILABLE, env))
  \/ (exists receiver,
        _receiver (self env) = Some receiver /\
        (command tables cmd_id params env
         = (Return StatusCodes.NOT_IMPLEMENTED, env)
         \/ (exists e,
               (e = AttributeError \/ e = KeyError) /\
               command tables cmd_id params env = (Raise e, env))
         \/ (exists c,
               command tables cmd_id params env
               = (Return (respond receiver c),
                  {| self := self env; invoked := invoked env ++ [c] |})))).
Proof.
  unfold command, bind, get_self.
  destruct (_receiver (self env)) as [receiver|] eqn:Hr; [|by left].
  right. exists receiver. split; [done|].
  unfold command_match, bind, await, params_get, subscript, ret, raise.
  repeat (destruct (String.eqb cmd_id _);
          [ first
              [ by right; right; eexists _
              | destruct params;
                  [ by right; right; eexists _
                  | right; left; exists AttributeError; by split; [left|] ]
              | destruct (attributes (self env) !! Attributes.MUTED);
                  [ by right; right; eexists _
                  | right; left; exists KeyError; by split; [right|] ] ] |]).
  destruct (bool_decide _); [by right; right; eexists _ | by left].
Qed.

(** X10.  The commands that read a parameter raise [AttributeError] when no
    parameters are given; nothing is invoked. *)
Theorem command_without_parameters tables cmd_id key env receiver :
  _receiver (self env) = Some receiver ->
  (cmd_id, key) ∈ parameter_commands ->
  command tables cmd_id None env = (Raise AttributeError, env).
Proof.
  intros Hr Hc. unfold command, bind, get_self. rewrite Hr.
  revert Hc. unfold parameter_commands.
  rewrite !elem_of_cons, elem_of_nil.
  intros [[= -> _]|[[= -> _]|[[= -> _]|[]]]]; reflexivity.
Qed.

(** Setting the volume of the sample entity without parameters. *)
Lemma command_without_parameters_witness :
  let env := {| self := sample_entity; invoked := [] |} in
  command sample_tables Commands.VOLUME None env = (Raise AttributeError, env).
Proof.
  intros env.
  apply (command_without_parameters sample_tables Commands.VOLUME "volume" env
           sample_receiver).
  - reflexivity.
  - unfold parameter_commands. apply list_elem_of_here.
Defined.

(** X11.  With parameters, VOLUME, SELECT_SOURCE and SELECT_SOUND_MODE pass
    on what the parameters hold under volume, source and mode, and [None]
    when the key is missing. *)
Theorem command_with_parameters tables (d : gmap string value) env receiver :
  _receiver (self env) = Some receiver ->
  let run cmd_id c :=
    command tables cmd_id (Some d) env
    = (Return (respond receiver c),
       {| self := self env; invoked := invoked env ++ [c] |}) in
  run Commands.VOLUME (set_volume_level (default VNone (d !! "volume"))) /\
  run Commands.SELECT_SOURCE (select_source (default VNone (d !! "source"))) /\
  run Commands.SELECT_SOUND_MODE
    (select_sound_mode (default VNone (d !! "mode"))).
Proof.
  intros Hr. unfold command, bind, get_self. rewrite Hr.
  repeat split; reflexivity.
Qed.

(** Selecting a source without naming it. *)
Lemma command_with_parameters_witness :
  let env := {| self := sample_entity; invoked := [] |} in
  command sample_tables Commands.SELECT_SOURCE (Some ∅) env
  = (Return StatusCodes.OK,
     {| self := sample_entity; invoked := [select_source VNone] |}).
Proof.
  intros env.
  exact (proj1 (proj2 (command_with_parameters sample_tables ∅ env
                         sample_receiver eq_refl))).
Defined.

(** A simple command of the Denon telnet table, sent to the sample entity. *)
Lemma command_forwards_simple_command_witness :
  let env := {| self := sample_entity; invoked := [] |} in
  command sample_tables "DIMMER_OFF" None env
  = (Return StatusCodes.OK,
     {| self := sample_entity; invoked := [send_simple_command "DIMMER_OFF"] |}).
Proof.
  intros env.
  apply (command_forwards_simple_command sample_tables "DIMMER_OFF" None env
           sample_receiver).
  - reflexivity.
  - unfold structured_commands. decide_elem.
  - simpl. decide_elem.
Defined.

(** X13.  Apart from MUTE_TOGGLE, a command looks at nothing of the entity
    but its receiver: neither the features nor the attributes nor the simple
    commands of the entity decide what is invoked. *)
Theorem command_ignores_features tables cmd_id params env env' :
  cmd_id ≠ Commands.MUTE_TOGGLE ->
  _receiver (self env) = _receiver (self env') ->
  invoked env = invoked env' ->
  fst (command tables cmd_id params env)
  = fst (command tables cmd_id params env') /\
  invoked (snd (command tables cmd_id params env))
  = invoked (snd (command tables cmd_id params env')).
Proof.
  intros Hc Hr Hi. unfold command, bind, get_self. rewrite <- Hr.
  destruct (_receiver (self env)) as [receiver|]; [|by split].
  unfold command_match, bind, await, params_get, subscript, ret, raise.
  apply String.eqb_neq in Hc. rewrite Hc.
  repeat (destruct (String.eqb cmd_id _);
          [ first [ simpl; rewrite Hi; by split
                  | destruct params; simpl; rewrite ?Hi; by split ] |]).
  destruct (bool_decide _); simpl; rewrite ?Hi; by split.
Qed.

(** The sample entity and the same entity with nothing recorded and no
    features answer a request for a sound mode alike. *)
Lemma command_ignores_features_witness :
  let params : gmap string value := {[ "mode" := VStr "MOVIE" ]} in
  let bare :=
    {| _receiver := Some sample_receiver; id := "media_player.avr1";
       name := "Living room"; features := []; attributes := ∅;
       simple_commands := [] |} in
  let env := {| self := sample_entity; invoked := [] |} in
  let env' := {| self := bare; invoked := [] |} in
  Commands.SELECT_SOUND_MODE ≠ Commands.MUTE_TOGGLE /\
  fst (command sample_tables Commands.SELECT_SOUND_MODE (Some params) env)
  = fst (command sample_tables Commands.SELECT_SOUND_MODE (Some params) env') /\
  invoked (snd (command sample_tables Commands.SELECT_SOUND_MODE (Some params) env))
  = invoked (snd (command sample_tables Commands.SELECT_SOUND_MODE (Some params) env')).
Proof.
  intros params bare env env'.
  assert (Commands.SELECT_SOUND_MODE ≠ Commands.MUTE_TOGGLE) as Hne
    by discriminate.
  split; [exact Hne|].
  exact (command_ignores_features sample_tables Commands.SELECT_SOUND_MODE
           (Some params) env env' Hne eq_refl eq_refl).
Defined.

(** ** More of the state mapping *)

(** X14.  The state mapping tells the receiver states apart: two receiver
    states with the same entity state are the same state, and no receiver
    state makes [state_from_avr] raise. *)
Theorem state_from_avr_injective (a b : avr.States.t) :
  (exists s, state_from_avr (VAvrState a) = Return s) /\
  (state_from_avr (VAvrState a) = state_from_avr (VAvrState b) -> a = b).
Proof.
  split.
  - destruct a; by eexists.
  - destruct a, b; simpl; intros H; try reflexivity; discriminate H.
Qed.

(** PAUSED maps to itself only. *)
Lemma state_from_avr_injective_witness :
  state_from_avr (VAvrState avr.States.PAUSED)
  = state_from_avr (VAvrState avr.States.PAUSED) /\
  avr.States.PAUSED = avr.States.PAUSED.
Proof.
  split; [reflexivity|].
  exact (proj2 (state_from_avr_injective avr.States.PAUSED avr.States.PAUSED)
           eq_refl).
Defined.

(** ** More of the driver *)

(** X15.  Whatever the interval and the clock readings, the poller sleeps at
    least one second and at most ten. *)
Theorem poller_sleep_bounds (interval start_time end_time : Q) :
  (1 <= driver.poller_sleep interval start_time end_time)%Q /\
  (driver.poller_sleep interval start_time end_time <= 10)%Q.
Proof.
  unfold driver.poller_sleep.
  set (a := (interval - (end_time - start_time))%Q).
  destruct (Q.max_spec 1 a) as [[H1 E1]|[H1 E1]];
    destruct (Q.min_spec 10 (Qmax 1 a)) as [[H2 E2]|[H2 E2]];
    rewrite E2; split; lra.
Qed.

(** X16.  When the remainder that a cycle computes, the interval minus the
    elapsed time, lies between one and ten seconds, the poller sleeps that
    remainder itself: the clamp leaves it as it is. *)
Theorem poller_sleep_is_remainder (interval start_time end_time : Q) :
  (1 <= interval - (end_time - start_time))%Q ->
  (interval - (end_time - start_time) <= 10)%Q ->
  (driver.poller_sleep interval start_time end_time
   == interval - (end_time - start_time))%Q.
Proof.
  intros Hlo Hhi. unfold driver.poller_sleep.
  set (a := (interval - (end_time - start_time))%Q) in *.
  destruct (Q.max_spec 1 a) as [[H1 E1]|[H1 E1]];
    destruct (Q.min_spec 10 (Qmax 1 a)) as [[H2 E2]|[H2 E2]];
    rewrite E2; lra.
Qed.

(** The default interval and a quarter of a second of work. *)
Lemma poller_sleep_is_remainder_witness :
  (driver.poller_sleep 10 1 (5#4) == 10 - ((5#4) - 1))%Q.
Proof.
  apply (poller_sleep_is_remainder 10 1 (5#4)).
  - vm_compute. discriminate.
  - vm_compute. discriminate.
Defined.

(** X17.  Unsubscribing entities that name no receiver, or a receiver that
    is not configured, returns and leaves every receiver as it is. *)
Theorem on_unsubscribe_entities_unknown
    (avr_from_entity_id : string -> option string)
    entity_ids (avrs : gmap string driver.Receiver) :
  (forall entity_id avr_id,
     entity_id ∈ entity_ids ->
     avr_from_entity_id entity_id = Some avr_id ->
     avrs !! avr_id = None) ->
  driver.on_unsubscribe_entities avr_from_entity_id entity_ids avrs
  = (Return tt, avrs).
Proof.
  induction entity_ids as [|entity_id rest IH]; intros Hun; [reflexivity|].
  cbn [driver.on_unsubscribe_entities].
  assert (driver.on_unsubscribe_entities avr_from_entity_id rest avrs
          = (Return tt, avrs)) as Hrest.
  { apply IH. intros e a He. apply Hun. by apply list_elem_of_further. }
  destruct (avr_from_entity_id entity_id) as [avr_id|] eqn:Hid; [|exact Hrest].
  rewrite bool_decide_eq_false_2; [exact Hrest|].
  rewrite (Hun entity_id avr_id); [by intros [? ?] | apply list_elem_of_here | done].
Qed.

(** An identifier without a dot and the entity of another receiver. *)
Lemma on_unsubscribe_entities_unknown_witness :
  let avrs : gmap string driver.Receiver := {[ "avr1" := sample_avr ]} in
  driver.on_unsubscribe_entities config.avr_from_entity_id
    ["nodot"; "media_player.avr2"] avrs
  = (Return tt, avrs).
Proof.
  intros avrs.
  apply (on_unsubscribe_entities_unknown config.avr_from_entity_id
           ["nodot"; "media_player.avr2"] avrs).
  intros entity_id avr_id.
  rewrite !elem_of_cons, elem_of_nil.
  intros [->|[->|[]]]; vm_compute; [discriminate|].
  intros [= <-]. reflexivity.
Defined.

Lemma avr_from_entities_from_avr avr_id entity_id :
  entity_id ∈ _entities_from_avr avr_id ->
  config.avr_from_entity_id entity_id = Some avr_id.
Proof.
  unfold _entities_from_avr. rewrite !elem_of_cons, elem_of_nil.
  intros [->|[->|[]]]; reflexivity.
Qed.

(** X18.  For every configured receiver whose entity identifiers are not
    themselves keys of the receiver map, unsubscribing either of its entities
    raises [KeyError]: the map is left as it is and the entities after it are
    not visited. *)
Theorem on_unsubscribe_entities_raises_for_all
    avr_id entity_id rest (avrs : gmap string driver.Receiver) :
  is_Some (avrs !! avr_id) ->
  entity_id ∈ _entities_from_avr avr_id ->
  avrs !! entity_id = None ->
  driver.on_unsubscribe_entities config.avr_from_entity_id
    (entity_id :: rest) avrs
  = (Raise KeyError, avrs).
Proof.
  intros Hin He Hout.
  apply on_unsubscribe_entities_wrong_key with (avr_id := avr_id);
    [by apply avr_from_entities_from_avr | done | done].
Qed.

(** The remote entity of a configured receiver, followed by another
    entity. *)
Lemma on_unsubscribe_entities_raises_for_all_witness :
  let avrs : gmap string driver.Receiver :=
    {[ "avr1" := sample_avr; "avr2" := sample_avr ]} in
  driver.on_unsubscribe_entities config.avr_from_entity_id
    ["remote.avr2"; "media_player.avr1"] avrs
  = (Raise KeyError, avrs).
Proof.
  intros avrs.
  apply (on_unsubscribe_entities_raises_for_all "avr2" "remote.avr2"
           ["media_player.avr1"] avrs).
  - exists sample_avr. vm_compute; reflexivity.
  - unfold _entities_from_avr. apply list_elem_of_further, list_elem_of_here.
  - vm_compute; reflexivity.
Defined.

(** ** Updates that change nothing *)

Lemma py_eq_sym a b : py_eq a b = py_eq b a.
Proof.
  destruct a, b; simpl; try reflexivity;
    apply bool_decide_ext; split; congruence.
Qed.

(** X19.  When the entity records, for every key the update supplies, a
    value equal to the one supplied (for the state: equal to its
    translation), the delta is empty. *)
Theorem unchanged_update_empty_delta self update delta :
  filter_changed_attributes self update = Return delta ->
  (forall k v, k ≠ Attributes.STATE -> update !! k = Some v ->
     exists old, attributes self !! k = Some old /\ py_eq old v = true) ->
  (forall v s, update !! Attributes.STATE = Some v ->
     state_from_avr v = Return s ->
     exists old, attributes self !! Attributes.STATE = Some old /\
                 py_eq old (VState s) = true) ->
  delta = ∅.
Proof.
  intros Hret Hkeys Hstate.
  assert (forall k v, k ≠ Attributes.STATE -> update !! k = Some v ->
            scalar_changed self k v = false) as Hsc.
  { intros k v Hk Hv. destruct (Hkeys k v Hk Hv) as (old & Hold & Heq).
    unfold scalar_changed, py_ne. rewrite Hold, Heq. apply andb_false_r. }
  assert (forall k v, k ≠ Attributes.STATE -> update !! k = Some v ->
            list_changed self k v = false) as Hlc.
  { intros k v Hk Hv. destruct (Hkeys k v Hk Hv) as (old & Hold & Heq).
    unfold list_changed, py_ne. by rewrite Hold, py_eq_sym, Heq. }
  assert (state_entry self update = None) as Hst.
  { unfold state_entry.
    destruct (update !! Attributes.STATE) as [v|] eqn:Hv; [|done].
    destruct (state_from_avr v) as [s|e] eqn:Hs; [|done].
    destruct (Hstate v s eq_refl Hs) as (old & Hold & Heq).
    unfold scalar_changed, py_ne. by rewrite Hold, Heq. }
  assert (forall k, pre_entry self update k = None) as Hpre.
  { intros k. unfold pre_entry. case_decide as Hk; [done|].
    unfold diff_entry, scalar_entry, list_entry.
    destruct (update !! k) as [v|] eqn:Hv; [|by repeat case_decide].
    rewrite (Hsc k v Hk Hv), (Hlc k v Hk Hv). by repeat case_decide. }
  apply map_eq. intros k. rewrite lookup_empty.
  rewrite (filter_changed_attributes_lookup _ _ _ _ Hret), Hst, Hpre.
  by case_decide.
Qed.

(** A receiver that reports the volume the new entity records. *)
Lemma unchanged_update_empty_delta_witness :
  let update : gmap string value := {[ Attributes.VOLUME := VInt 0 ]} in
  attributes sample_entity !! Attributes.VOLUME = Some (VInt 0) /\
  filter_changed_attributes sample_entity update = Return ∅.
Proof.
  intros update. split; [vm_compute; reflexivity|].
  destruct (filter_changed_attributes sample_entity update) as [delta|e] eqn:Hret;
    [|vm_compute in Hret; discriminate Hret].
  f_equal.
  apply (unchanged_update_empty_delta sample_entity update delta Hret).
  - intros k v Hk [<- <-]%lookup_singleton_Some. by exists (VInt 0).
  - intros v s [[=] _]%lookup_singleton_Some.
Defined.
